(** * moleculer-db-adapter-mongoose: the adapter of [src/index.js]

    A shallow embedding of the class [MongooseDbAdapter] over a small model
    of the JavaScript values it manipulates, and the properties of its
    initialisation, connection and identifier translation routines.

    Scope of the value model.  Objects live in a store and are referred to
    by location, so that aliasing and in-place mutation are visible.  Every
    own property is a writable, enumerable, configurable data property;
    accessor properties and symbols are outside the model, and numbers are
    integers.  A method that the class calls on [this] is the method of the
    class.
    The name [__proto__], which the language serves by an accessor of
    [Object.prototype], is modelled as far as the store can express it: an
    assignment of a value that is neither an object nor [null] through the
    accessor stores nothing, while a change of prototype, or a read of the
    prototype through that name, ends the run with [Unmodelled].  Every
    object inherits from [Object.prototype]; callable objects also inherit
    from [Function.prototype], whose own properties are not writable: the
    properties of the transforms are stated on records, which are not
    callable.  The tables of the built-in prototypes list the conversion
    methods and, for [Object.prototype] and [Function.prototype], their
    standard members; on a primitive value the adapter reads no other
    property than these and names that no primitive defines ([_id],
    [toJSON], [toHexString], [then], [promiseLibrary], [schema], [model],
    [modelName], [logger], [info], [on], [close]). *)

From Stdlib Require Import ZArith String List DecimalString.
From stdpp Require Import base option gmap strings list.

Open Scope string_scope.

(** ** Values, objects and the store *)

Abbreviation loc := positive.

(** The entry points of the mongoose library the adapter calls. *)
Inductive entry :=
| Mongoose_connect          (* mongoose.connect *)
| Mongoose_model            (* mongoose.model *)
| ObjectId_isValid          (* mongoose.Types.ObjectId.isValid *)
| Schema_Types_ObjectId     (* mongoose.Schema.Types.ObjectId, used with new *)
| Mongoose_Promise.         (* the setter behind mongoose.Promise = ... *)

(** The code a callable value runs. *)
Inductive func :=
| Number_prototype_toString
| Boolean_prototype_toString
| String_prototype_toString
| Object_prototype_toString
| Function_prototype_toString
| Object_prototype_member (name : string)
| Function_prototype_member (name : string)
| Lib (e : entry)
| Handler (ev : string)     (* the arrow functions registered by connect *)
| Host (n : nat).           (* any other function of the host program *)

Inductive value :=
| VUndefined
| VNull
| VBool (b : bool)
| VNumber (n : Z)
| VString (s : string)
| VNative (f : func)        (* a built-in function *)
| VObject (l : loc).

Record object := Obj {
  props : gmap string value;
  callable : option func
}.

Inductive exn :=
| TypeError
| ServiceSchemaError (msg : string)
| Thrown (v : value)        (* a value thrown by host or library code *)
| BadRef                    (* a reference outside the store: never arises in JS *)
| Unmodelled.               (* a step the store cannot express: the prototype read or changed *)

Inductive completion (A : Type) :=
| Normal (a : A)
| Throw (e : exn).
Arguments Normal {A} a.
Arguments Throw {A} e.

#[global] Instance entry_eq_dec : EqDecision entry.
Proof. solve_decision. Defined.
#[global] Instance func_eq_dec : EqDecision func.
Proof. solve_decision. Defined.
#[global] Instance value_eq_dec : EqDecision value.
Proof. solve_decision. Defined.

(** ** Primitive operations of the language *)

(** ToBoolean. *)
Definition truthy (v : value) : bool :=
  match v with
  | VUndefined | VNull => false
  | VBool b => b
  | VNumber n => negb (n =? 0)%Z
  | VString s => negb (String.eqb s "")
  | VNative _ | VObject _ => true
  end.

(** [typeof v == "string"]. *)
Definition typeof_string (v : value) : bool :=
  match v with VString _ => true | _ => false end.

(** [v !== undefined]. *)
Definition defined (v : value) : bool :=
  match v with VUndefined => false | _ => true end.

Definition Object_prototype_names : list string :=
  [ "constructor"; "hasOwnProperty"; "isPrototypeOf"; "propertyIsEnumerable";
    "toLocaleString"; "valueOf"; "__defineGetter__"; "__defineSetter__";
    "__lookupGetter__"; "__lookupSetter__" ].

(** The data properties of [Object.prototype]; its accessor [__proto__] is
    served by [get_in] and [set]. *)
Definition Object_prototype : gmap string value :=
  <["toString" := VNative Object_prototype_toString]>
    (list_to_map
       (map (fun k => (k, VNative (Object_prototype_member k)))
            Object_prototype_names)).

(** [Function.prototype]: its methods and its data properties [name] and
    [length]; the accessors [caller] and [arguments] are not listed. *)
Definition Function_prototype : gmap string value :=
  <["toString" := VNative Function_prototype_toString]>
    (<["call" := VNative (Function_prototype_member "call")]>
       (<["apply" := VNative (Function_prototype_member "apply")]>
          (<["bind" := VNative (Function_prototype_member "bind")]>
             (<["name" := VString ""]>
                (<["length" := VNumber 0]> Object_prototype))))).

Definition Number_prototype : gmap string value :=
  <["toString" := VNative Number_prototype_toString]> Object_prototype.

Definition Boolean_prototype : gmap string value :=
  <["toString" := VNative Boolean_prototype_toString]> Object_prototype.

Definition String_prototype : gmap string value :=
  <["toString" := VNative String_prototype_toString]> Object_prototype.

(** What an object inherits. *)
Definition inherited (o : object) : gmap string value :=
  match callable o with
  | Some _ => Function_prototype
  | None => Object_prototype
  end.

(** [o[k]] on an object of the store: own properties first, then the
    prototype chain; [undefined] when the name is found nowhere. *)
Definition obj_get (o : object) (k : string) : value :=
  match props o !! k with
  | Some v => v
  | None => default VUndefined (inherited o !! k)
  end.

Definition proto_get (p : gmap string value) (k : string) : value :=
  default VUndefined (p !! k).

(** [k] reaches the accessor [__proto__] of [Object.prototype] on a value
    with the own properties [ps]: the name is [__proto__] and the value has
    no property of its own under it. *)
Definition through_proto_accessor (ps : gmap string value) (k : string) : bool :=
  String.eqb k "__proto__" && bool_decide (ps !! k = None).

(** [v[k]] on a primitive value or a native function, which have no
    properties of their own here: the prototype [p] answers.  The getter of
    [__proto__] answers the prototype itself, an object that is not among
    the values: that read is not modelled. *)
Definition proto_read (p : gmap string value) (k : string) : completion value :=
  if String.eqb k "__proto__" then Throw Unmodelled else Normal (proto_get p k).

(** [v[k]] for any value [v]. *)
Definition get_in (h : gmap loc object) (v : value) (k : string) : completion value :=
  match v with
  | VUndefined | VNull => Throw TypeError
  | VBool _ => proto_read Boolean_prototype k
  | VNumber _ => proto_read Number_prototype k
  | VString _ => proto_read String_prototype k
  | VNative _ => proto_read Function_prototype k
  | VObject l =>
      match h !! l with
      | Some o =>
          if through_proto_accessor (props o) k then Throw Unmodelled
          else Normal (obj_get o k)
      | None => Throw BadRef
      end
  end.

(** The integers every one of which is a number of the language:
    [Number.isSafeInteger]. *)
Definition safe_integer (n : Z) : bool :=
  (Z.abs n <=? 9007199254740991)%Z.

(** Number.prototype.toString on a safe integer: its decimal digits.  Larger
    numbers are printed from their shortest digits, with an exponent from
    [1e21] on, which is not modelled. *)
Definition number_to_string (n : Z) : option string :=
  if safe_integer n then Some (NilZero.string_of_int (Z.to_int n)) else None.

(** The class tag printed by Object.prototype.toString. *)
Definition class_tag (h : gmap loc object) (v : value) : string :=
  match v with
  | VUndefined => "[object Undefined]"
  | VNull => "[object Null]"
  | VBool _ => "[object Boolean]"
  | VNumber _ => "[object Number]"
  | VString _ => "[object String]"
  | VNative _ => "[object Function]"
  | VObject l =>
      match h !! l with
      | Some (Obj _ (Some _)) => "[object Function]"
      | _ => "[object Object]"
      end
  end.

(** ** The adapter instance and the state of a run *)

(** The fields of [this]; a field that was never assigned reads [undefined]. *)
Record Adapter := mkAdapter {
  uri : value;
  opts : value;
  broker : value;
  service : value;
  model : value;
  schema : value;
  modelName : value;
  db : value
}.

Definition set_uri (v : value) (a : Adapter) : Adapter :=
  mkAdapter v (opts a) (broker a) (service a) (model a) (schema a) (modelName a) (db a).
Definition set_opts (v : value) (a : Adapter) : Adapter :=
  mkAdapter (uri a) v (broker a) (service a) (model a) (schema a) (modelName a) (db a).
Definition set_broker (v : value) (a : Adapter) : Adapter :=
  mkAdapter (uri a) (opts a) v (service a) (model a) (schema a) (modelName a) (db a).
Definition set_service (v : value) (a : Adapter) : Adapter :=
  mkAdapter (uri a) (opts a) (broker a) v (model a) (schema a) (modelName a) (db a).
Definition set_model (v : value) (a : Adapter) : Adapter :=
  mkAdapter (uri a) (opts a) (broker a) (service a) v (schema a) (modelName a) (db a).
Definition set_schema (v : value) (a : Adapter) : Adapter :=
  mkAdapter (uri a) (opts a) (broker a) (service a) (model a) v (modelName a) (db a).
Definition set_modelName (v : value) (a : Adapter) : Adapter :=
  mkAdapter (uri a) (opts a) (broker a) (service a) (model a) (schema a) v (db a).
Definition set_db (v : value) (a : Adapter) : Adapter :=
  mkAdapter (uri a) (opts a) (broker a) (service a) (model a) (schema a) (modelName a) v.

Inductive mode := Call | Construct.

(** One invocation made by the adapter's code: [callee.call(receiver, ...args)]
    or [new callee(...args)]. *)
Record event := Invoke {
  how : mode;
  callee : func;
  receiver : value;
  args : list value
}.

Record state := St {
  heap : gmap loc object;
  this : Adapter;
  log : list event          (* oldest first *)
}.

(** ** The monad of computations: state and exceptions *)

Definition M (A : Type) : Type := state -> completion A * state.

#[global] Instance M_ret : MRet M := fun A a st => (Normal a, st).
#[global] Instance M_bind : MBind M := fun A B f m st =>
  match m st with
  | (Normal a, st') => f a st'
  | (Throw e, st') => (Throw e, st')
  end.

Definition throw {A} (e : exn) : M A := fun st => (Throw e, st).
Definition lift {A} (c : completion A) : M A := fun st => (c, st).
Definition get_heap : M (gmap loc object) := fun st => (Normal (heap st), st).
Definition get_this : M Adapter := fun st => (Normal (this st), st).
Definition modify_this (f : Adapter -> Adapter) : M unit :=
  fun st => (Normal tt, St (heap st) (f (this st)) (log st)).
Definition put_heap (h : gmap loc object) : M unit :=
  fun st => (Normal tt, St h (this st) (log st)).
Definition record (e : event) : M unit :=
  fun st => (Normal tt, St (heap st) (this st) (log st ++ [e])).

(** Statements: a block either falls through or returns a value. *)
Inductive flow (R : Type) :=
| Next
| Return (r : R).
Arguments Next {R}.
Arguments Return {R} r.

Definition seq {R} (s1 s2 : M (flow R)) : M (flow R) :=
  f ← s1; match f with Next => s2 | Return r => mret (Return r) end.

Definition return_ {R} (e : M R) : M (flow R) := r ← e; mret (Return r).
Definition stmt {A R} (e : M A) : M (flow R) := _ ← e; mret Next.
Definition if_ {R} (c : M bool) (s : M (flow R)) : M (flow R) :=
  b ← c; if b : bool then s else mret Next.
Definition if_else {R} (c : M bool) (s1 s2 : M (flow R)) : M (flow R) :=
  b ← c; if b : bool then s1 else s2.

(** The value of a call whose body is [s]: [undefined] when the body falls
    off its end. *)
Definition body (s : M (flow value)) : M value :=
  f ← s; match f with Next => mret VUndefined | Return r => mret r end.

Declare Scope js_scope.
Delimit Scope js_scope with js.
Notation "s1 ;;; s2" := (seq s1 s2) (at level 90, right associativity) : js_scope.
Open Scope js_scope.

(** [a && b]: [b] is evaluated only when [a] is truthy. *)
Definition js_and (a b : M value) : M value :=
  x ← a; if truthy x then b else mret x.

Definition to_bool (e : M value) : M bool := v ← e; mret (truthy v).
Definition bool_and (a b : M bool) : M bool :=
  x ← a; if x : bool then b else mret false.
Definition js_not (e : M value) : M bool := v ← e; mret (negb (truthy v)).

(** ** Property access, calls and allocation *)

Definition get (v : value) (k : string) : M value :=
  h ← get_heap; lift (get_in h v k).

(** The values the setter of [__proto__] takes as a prototype: objects and
    [null]. *)
Definition object_or_null (x : value) : bool :=
  match x with
  | VNull | VNative _ | VObject _ => true
  | _ => false
  end.

(** [v[k] = x] in strict mode: a primitive receiver raises.  Through the
    accessor [__proto__] nothing is stored: a value that is neither an object
    nor [null] is ignored, the others would change the prototype.  A native
    function has no place in the store to keep a property. *)
Definition set (v : value) (k : string) (x : value) : M unit :=
  match v with
  | VObject l =>
      h ← get_heap;
      match h !! l with
      | Some o =>
          if through_proto_accessor (props o) k then
            if object_or_null x then throw Unmodelled else mret tt
          else put_heap (<[l := Obj (<[k := x]> (props o)) (callable o)]> h)
      | None => throw BadRef
      end
  | VNative _ => throw Unmodelled
  | _ => throw TypeError
  end.

(** [delete v[k]] on an object. *)
Definition delete_prop (v : value) (k : string) : M unit :=
  match v with
  | VObject l =>
      h ← get_heap;
      match h !! l with
      | Some o => put_heap (<[l := Obj (delete k (props o)) (callable o)]> h)
      | None => throw BadRef
      end
  | VUndefined | VNull => throw TypeError
  | VNative _ => throw Unmodelled
  | _ => mret tt
  end.

(** A new object at a location not yet in use. *)
Definition alloc (o : object) : M value :=
  h ← get_heap;
  let l := fresh (dom h) in
  _ ← put_heap (<[l := o]> h);
  mret (VObject l).

(** [Object.assign({}, entity)] for an object [entity]: a new plain object
    that is assigned the own properties of [entity].  The assignment of a
    property named [__proto__] goes through the accessor of the new object:
    the property is not copied. *)
Definition Object_assign_empty (entity : loc) : M value :=
  h ← get_heap;
  match h !! entity with
  | Some o =>
      match props o !! "__proto__" with
      | None => alloc (Obj (props o) None)
      | Some x =>
          if object_or_null x then throw Unmodelled
          else alloc (Obj (delete "__proto__" (props o)) None)
      end
  | None => throw BadRef
  end.

Section Adapter.

(** The host program and the mongoose library: what a function that is not
    modelled here returns and how it changes the store. *)
Variable host :
  mode -> func -> value -> list value -> gmap loc object ->
  completion value * gmap loc object.

(** [mongoose.connection]. *)
Variable mongoose_connection : value.

Definition host_call (m : mode) (f : func) (rcv : value) (xs : list value) : M value :=
  fun st =>
    let '(c, h') := host m f rcv xs (heap st) in
    (c, St h' (this st) (log st)).

(** Applying the code [f].  The string conversions of primitive values are
    those of the language, and built-in methods are not constructors; a
    number outside the safe integers is printed by the host, as is the
    result of every function that is not modelled here. *)
Definition apply_func (m : mode) (f : func) (rcv : value) (xs : list value) : M value :=
  match m, f with
  | Call, Number_prototype_toString =>
      match rcv with
      | VNumber n =>
          match number_to_string n with
          | Some s => mret (VString s)
          | None => host_call m f rcv xs
          end
      | _ => throw TypeError
      end
  | Call, Boolean_prototype_toString =>
      match rcv with
      | VBool b => mret (VString (if b then "true" else "false"))
      | _ => throw TypeError
      end
  | Call, String_prototype_toString =>
      match rcv with
      | VString s => mret (VString s)
      | _ => throw TypeError
      end
  | Call, Object_prototype_toString =>
      h ← get_heap; mret (VString (class_tag h rcv))
  | Construct, Number_prototype_toString
  | Construct, Boolean_prototype_toString
  | Construct, String_prototype_toString
  | Construct, Object_prototype_toString
  | Construct, Function_prototype_toString
  | Construct, Object_prototype_member _
  | Construct, Function_prototype_member _ => throw TypeError
  | _, _ => host_call m f rcv xs
  end.

(** The code behind a value, when it is callable. *)
Definition code_of (h : gmap loc object) (fv : value) : completion func :=
  match fv with
  | VNative f => Normal f
  | VObject l =>
      match h !! l with
      | Some o => match callable o with Some f => Normal f | None => Throw TypeError end
      | None => Throw BadRef
      end
  | _ => Throw TypeError
  end.

(** [v] exposes the capability [k]: [v[k]] is a function. *)
Definition exposes (h : gmap loc object) (v : value) (k : string) : bool :=
  match get_in h v k with
  | Normal fv => match code_of h fv with Normal _ => true | Throw _ => false end
  | Throw _ => false
  end.

Definition invoke (m : mode) (fv rcv : value) (xs : list value) : M value :=
  h ← get_heap;
  f ← lift (code_of h fv);
  _ ← record (Invoke m f rcv xs);
  apply_func m f rcv xs.

(** [rcv.k(...xs)]. *)
Definition call_method (rcv : value) (k : string) (xs : list value) : M value :=
  fv ← get rcv k; invoke Call fv rcv xs.

(** A call of a library entry point; its receiver, an object of the
    library, is not modelled. *)
Definition lib (m : mode) (e : entry) (xs : list value) : M value :=
  invoke m (VNative (Lib e)) VUndefined xs.

(** ** The methods of [MongooseDbAdapter] *)

Definition stringToObjectID (id : value) : M value :=
  body (
    if_ (to_bool (js_and (mret (VBool (typeof_string id)))
                         (lib Call ObjectId_isValid [id])))
      (return_ (lib Construct Schema_Types_ObjectId [id])) ;;;
    return_ (mret id)).

Definition objectIDToString (id : value) : M value :=
  body (
    if_ (to_bool (js_and (mret id) (get id "toString")))
      (return_ (call_method id "toString" [])) ;;;
    return_ (mret id)).

Definition entityToObject (entity : value) : M value :=
  body (
    json ← call_method entity "toJSON" [];
    if_else (to_bool (js_and (get entity "_id")
                             (id ← get entity "_id"; get id "toHexString")))
      (stmt (id ← get entity "_id";
             x ← call_method id "toHexString" [];
             set json "_id" x))
      (if_ (to_bool (js_and (get entity "_id")
                            (id ← get entity "_id"; get id "toString")))
         (stmt (id ← get entity "_id";
                x ← call_method id "toString" [];
                set json "_id" x))) ;;;
    return_ (mret json)).

(** [json._id = id[k]()] followed by [return json]: what either branch of
    [entityToObject] does once it is chosen. *)
Definition store_id (json id : value) (k : string) : M value :=
  x ← call_method id k []; _ ← set json "_id" x; mret json.

(** The two transforms take a record, that is an object of the store. *)
Definition beforeSaveTransformID (entity : loc) (idField : string) : M value :=
  body (
    if_ (bool_and (mret (negb (String.eqb idField "_id")))
                  (v ← get (VObject entity) idField; mret (defined v)))
      (newEntity ← Object_assign_empty entity;
       stmt (v ← get (VObject entity) idField;
             x ← stringToObjectID v;
             set newEntity "_id" x) ;;;
       stmt (delete_prop newEntity idField) ;;;
       return_ (mret newEntity)) ;;;
    return_ (mret (VObject entity))).

Definition afterRetrieveTransformID (entity : loc) (idField : string) : M value :=
  body (
    if_ (mret (negb (String.eqb idField "_id")))
      (stmt (v ← get (VObject entity) "_id";
             x ← objectIDToString v;
             set (VObject entity) idField x) ;;;
       stmt (delete_prop (VObject entity) "_id")) ;;;
    return_ (mret (VObject entity))).

(** The object that [new] hands to the constructor: no field is set. *)
Definition unset_adapter : Adapter :=
  mkAdapter VUndefined VUndefined VUndefined VUndefined VUndefined VUndefined
    VUndefined VUndefined.

(** [this.service.schema[k]]. *)
Definition service_schema (k : string) : M value :=
  a ← get_this; sch ← get (service a) "schema"; get sch k.

Definition modelName_required : string :=
  "`modelName` is required when `schema` is given in schema of service!".

Definition missing_definition : string :=
  "Missing `model` or `schema` definition in schema of service!".

Definition init (broker service : value) : M value :=
  body (
    stmt (modify_this (set_broker broker)) ;;;
    stmt (modify_this (set_service service)) ;;;
    if_else (to_bool (service_schema "model"))
      (stmt (m ← service_schema "model"; modify_this (set_model m)))
      (if_ (to_bool (service_schema "schema"))
         (if_ (js_not (service_schema "modelName"))
            (throw (ServiceSchemaError modelName_required)) ;;;
          stmt (s ← service_schema "schema"; modify_this (set_schema s)) ;;;
          stmt (n ← service_schema "modelName"; modify_this (set_modelName n)))) ;;;
    if_ (bool_and (js_not (a ← get_this; mret (model a)))
                  (js_not (a ← get_this; mret (schema a))))
      (throw (ServiceSchemaError missing_definition))).

(** How a promise ends. *)
Inductive settlement :=
| Fulfilled (v : value)
| Rejected (e : exn).

(** The promise [p.then(onFulfilled)], given as what happens once [p] is
    settled: the reaction runs on fulfilment and its completion settles the
    derived promise; a rejection passes through, no handler being given. *)
Definition future : Type := settlement -> M settlement.

Definition then_ (onFulfilled : value -> M value) : future :=
  fun s =>
    match s with
    | Fulfilled v =>
        fun st =>
          match onFulfilled v st with
          | (Normal r, st') => (Normal (Fulfilled r), st')
          | (Throw e, st') => (Normal (Rejected e), st')
          end
    | Rejected e => mret (Rejected e)
    end.

(** [this.db.on(ev, () => ...)]: the method is read, then the arrow function
    is created, then the call is made. *)
Definition db_on (ev : string) : M value :=
  a ← get_this;
  fv ← get (db a) "on";
  f ← alloc (Obj ∅ (Some (Handler ev)));
  invoke Call fv (db a) [VString ev; f].

(** The reaction given to [then] in [connect]. *)
Definition connected : M value :=
  body (
    stmt (a ← get_this;
          logger ← get (service a) "logger";
          call_method logger "info"
            [VString "MongoDB adapter has connected successfully."]) ;;;
    stmt (modify_this (set_db mongoose_connection)) ;;;
    stmt (db_on "disconnected") ;;;
    stmt (db_on "error") ;;;
    stmt (db_on "reconnect")).

(** [p.then] is read and has to be a function, or the call [p.then(...)]
    raises.  What [mongoose.connect] answers is then taken for a promise:
    its [then] chains as [then_] says. *)
Definition thenable (p : value) : M unit :=
  fv ← get p "then"; h ← get_heap; _ ← lift (code_of h fv); mret tt.

(** [connect()]: the statement after the [return] is part of the body.  The
    promise that [mongoose.connect] answers is chained by its [then]. *)
Definition connect : M (flow future) :=
  return_ (a ← get_this;
           p ← lib Call Mongoose_connect [uri a; opts a];
           _ ← thenable p;
           mret (then_ (fun _ => connected))) ;;;
  stmt (a ← get_this;
        m ← lib Call Mongoose_model [modelName a; schema a];
        modify_this (set_model m)).

End Adapter.

(** ** The rest of the class: the constructor's choice of promises and
    [disconnect] *)

(** [a || b]: [b] is evaluated only when [a] is falsy. *)
Definition js_or (a b : M value) : M value :=
  x ← a; if truthy x then mret x else b.

(** What the constructor assigns to [mongoose.Promise]:
    [opts && opts.promiseLibrary || Promise], where [Promise] is bluebird. *)
Definition promise_library (bluebird opts : value) : M value :=
  js_or (js_and (mret opts) (get opts "promiseLibrary")) (mret bluebird).

Section Disconnect.

Variable host :
  mode -> func -> value -> list value -> gmap loc object ->
  completion value * gmap loc object.

Variable mongoose_connection : value.

(** [new MongooseDbAdapter(uri, opts)] on the object [this] that [new] has
    made: the two fields are assigned, then the promise implementation is
    handed to the library through the setter of [mongoose.Promise].  The
    body completes with [undefined]; the object is [this]. *)
Definition constructor (bluebird uri opts : value) : M value :=
  body (
    stmt (modify_this (set_uri uri)) ;;;
    stmt (modify_this (set_opts opts)) ;;;
    stmt (v ← promise_library bluebird opts; lib host Call Mongoose_Promise [v])).

(** The function given to [new Promise] in [disconnect], applied to the
    [resolve] function of the promise under construction. *)
Definition disconnect_executor (resolve : value) : M value :=
  body (
    if_else (to_bool (js_and (a ← get_this; mret (db a))
                             (a ← get_this; get (db a) "close")))
      (stmt (a ← get_this; call_method host (db a) "close" [resolve]))
      (stmt (call_method host mongoose_connection "close" [resolve]))).

End Disconnect.

(** A primitive value: neither a function nor an object of the store. *)
Definition primitive (v : value) : bool :=
  match v with
  | VNative _ | VObject _ => false
  | _ => true
  end.

(** The string a truthy primitive converts to. *)
Definition string_form (v : value) : string :=
  match v with
  | VBool b => if b then "true" else "false"
  | VNumber n => default "" (number_to_string n)
  | VString s => s
  | _ => ""
  end.

(** ** A concrete host, used to run the methods on examples *)

(** The library accepts every string as an identifier; its
    [Schema.Types.ObjectId], the schema type of mongoose, builds a new
    object that keeps its argument as the path it is the type of; its
    [connect] answers a new object with a [then];
    [Host 0] is a [toJSON] that serialises to a new record [{_id: 0}]; every
    other function returns [undefined]. *)
Definition sample_host (m : mode) (f : func) (rcv : value) (xs : list value)
    (h : gmap loc object) : completion value * gmap loc object :=
  match f with
  | Lib ObjectId_isValid => (Normal (VBool true), h)
  | Lib Mongoose_connect =>
      let l := fresh (dom h) in
      (Normal (VObject l), <[l := Obj {["then" := VNative (Host 2)]} None]> h)
  | Lib Schema_Types_ObjectId =>
      let l := fresh (dom h) in
      (Normal (VObject l), <[l := Obj {["path" := default VUndefined (head xs)]} None]> h)
  | Host 0 =>
      let l := fresh (dom h) in
      (Normal (VObject l), <[l := Obj {["_id" := VNumber 0]} None]> h)
  | _ => (Normal VUndefined, h)
  end.

(** A library whose connection attempt raises at once. *)
Definition failing_host (m : mode) (f : func) (rcv : value) (xs : list value)
    (h : gmap loc object) : completion value * gmap loc object :=
  match f with
  | Lib Mongoose_connect => (Throw (Thrown (VString "bad uri")), h)
  | _ => sample_host m f rcv xs h
  end.

(** The adapter as [new MongooseDbAdapter("mongodb://server")] leaves it. *)
Definition fresh_adapter : Adapter :=
  set_opts VUndefined (set_uri (VString "mongodb://server") unset_adapter).

Definition empty_state : state := St ∅ fresh_adapter [].

(** The record [{_id: "abc", title: "t"}]. *)
Definition after_state : state :=
  St {[ 1%positive := Obj {[ "_id" := VString "abc"; "title" := VString "t" ]} None ]}
     fresh_adapter [].

(** The record [{myID: "123", title: "t"}]. *)
Definition before_state : state :=
  St {[ 1%positive := Obj {[ "myID" := VString "123"; "title" := VString "t" ]} None ]}
     fresh_adapter [].



(** A service (at 1) whose schema (at 2) has the properties [cfg]; the
    object at 3 stands for a model or a schema definition, the one at 4 is
    the service's logger, the one at 6 the connection of the library; their
    methods [info] and [on] are the function at 5. *)
Definition service_state (cfg : gmap string value) : state :=
  St {[ 1%positive := Obj {[ "schema" := VObject 2; "logger" := VObject 4 ]} None;
        2%positive := Obj cfg None;
        3%positive := Obj ∅ None;
        4%positive := Obj {[ "info" := VObject 5 ]} None;
        5%positive := Obj ∅ (Some (Host 1));
        6%positive := Obj {[ "on" := VObject 5 ]} None ]}
     fresh_adapter [].

(** A service that declares both a model and a schema, and no modelName. *)
Definition both_cfg : gmap string value :=
  {[ "model" := VObject 3; "schema" := VObject 3 ]}.

(** A service that declares a schema and a modelName. *)
Definition schema_cfg : gmap string value :=
  {[ "schema" := VObject 3; "modelName" := VString "fakeModel" ]}.

(** The adapter initialised for that service: schema and modelName are
    pending, no model is set. *)
Definition pending_state : state :=
  snd (init VNull (VObject 1) (service_state schema_cfg)).

(** An entity whose identifier has a [toHexString], as in the unit tests:
    [{toJSON: Host 0, _id: {toHexString: Host 1}}]. *)
Definition doc_state : state :=
  St {[ 1%positive := Obj {[ "toJSON" := VObject 2; "_id" := VObject 3 ]} None;
        2%positive := Obj ∅ (Some (Host 0));
        3%positive := Obj {[ "toHexString" := VObject 4 ]} None;
        4%positive := Obj ∅ (Some (Host 1)) ]}
     fresh_adapter [].

(** An entity whose identifier is the number [0]:
    [{toJSON: Host 0, _id: 0}]. *)
Definition zero_state : state :=
  St {[ 1%positive := Obj {[ "toJSON" := VObject 2; "_id" := VNumber 0 ]} None;
        2%positive := Obj ∅ (Some (Host 0)) ]}
     fresh_adapter [].

(** The states after [entity.toJSON()]. *)
Definition doc_serialised : state :=
  snd (call_method sample_host (VObject 1) "toJSON" [] doc_state).

Definition zero_serialised : state :=
  snd (call_method sample_host (VObject 1) "toJSON" [] zero_state).




(** The part of [this] that [init] resolves. *)
Definition same_resolution (a a' : Adapter) : Prop :=
  model a' = model a /\ schema a' = schema a /\ modelName a' = modelName a.

Definition keeps_resolution {A} (c : M A) : Prop :=
  forall st r st', c st = (r, st') -> same_resolution (this st) (this st').


(** A library whose validity check raises. *)
Definition throwing_host (m : mode) (f : func) (rcv : value) (xs : list value)
    (h : gmap loc object) : completion value * gmap loc object :=
  match f with
  | Lib ObjectId_isValid => (Throw (Thrown (VString "no check")), h)
  | _ => sample_host m f rcv xs h
  end.

(** The record [{myID: 42, title: "t"}]. *)
Definition numeric_state : state :=
  St {[ 1%positive := Obj {[ "myID" := VNumber 42; "title" := VString "t" ]} None ]}
     fresh_adapter [].

(** [after_state] once [afterRetrieveTransformID] has been applied with the
    field name ["myID"]. *)
Definition after_result : state :=
  snd (afterRetrieveTransformID sample_host 1 "myID" after_state).

(** An entity whose [toJSON] answers [undefined]:
    [{toJSON: Host 1, _id: {toHexString: Host 1}}]. *)
Definition undefined_json_state : state :=
  St {[ 1%positive := Obj {[ "toJSON" := VObject 2; "_id" := VObject 3 ]} None;
        2%positive := Obj ∅ (Some (Host 1));
        3%positive := Obj {[ "toHexString" := VObject 2 ]} None ]}
     fresh_adapter [].

(** An adapter whose service, the record of [after_state], has no logger. *)
Definition mute_state : state :=
  St (heap after_state) (set_service (VObject 1) fresh_adapter) [].

(** [pending_state] once the reaction of [connect] has run. *)
Definition connected_state : state :=
  snd (then_ (fun _ => connected sample_host (VObject 6)) (Fulfilled VUndefined)
         pending_state).

(** An adapter that already holds a model, on a service that declares
    nothing. *)
Definition stale_state : state :=
  St (heap (service_state ∅)) (set_model (VObject 3) fresh_adapter) [].



(** The method call [rcv.k(...xs)] runs from [st] to [st'] with the
    outcome [r]: the property read under [k] is a function, whose code is
    [f], and [f] is what is applied, on [rcv] and [xs], once logged. *)
Definition calls_method
    (host : mode -> func -> value -> list value -> gmap loc object ->
            completion value * gmap loc object)
    (f : func) (rcv : value) (k : string) (xs : list value)
    (st : state) (r : completion value) (st' : state) : Prop :=
  exists fv,
    get_in (heap st) rcv k = Normal fv /\
    code_of (heap st) fv = Normal f /\
    apply_func host Call f rcv xs
      (St (heap st) (this st) (log st ++ [Invoke Call f rcv xs])) = (r, st').

(** The call [conn.on(ev, handler)] runs from [st] to [st'] and returns:
    [conn.on] is read, then the handler of [ev] is made, a new function at
    the next location of the store, and [conn.on], whose code is [f], is
    applied to the name of the event and that function. *)
Definition registers
    (host : mode -> func -> value -> list value -> gmap loc object ->
            completion value * gmap loc object)
    (f : func) (conn : value) (ev : string) (st st' : state) : Prop :=
  exists fv r,
    let l := fresh (dom (heap st)) in
    let h1 := <[l := Obj ∅ (Some (Handler ev))]> (heap st) in
    let xs := [VString ev; VObject l] in
    get_in (heap st) conn "on" = Normal fv /\
    code_of h1 fv = Normal f /\
    apply_func host Call f conn xs
      (St h1 (this st) (log st ++ [Invoke Call f conn xs])) = (Normal r, st').

(** A library whose setter of [mongoose.Promise] asserts that it is given
    a function. *)
Definition asserting_host (m : mode) (f : func) (rcv : value) (xs : list value)
    (h : gmap loc object) : completion value * gmap loc object :=
  match f with
  | Lib Mongoose_Promise =>
      match code_of h (default VUndefined (head xs)) with
      | Normal _ => (Normal VUndefined, h)
      | Throw _ => (Throw (Thrown (VString "mongoose.Promise must be a function")), h)
      end
  | _ => sample_host m f rcv xs h
  end.

(** An entity whose [toJSON] is an object that cannot be called:
    [{toJSON: {}}]. *)
Definition inert_json_state : state :=
  St {[ 1%positive := Obj {[ "toJSON" := VObject 2 ]} None;
        2%positive := Obj ∅ None ]}
     fresh_adapter [].

(** The options [{promiseLibrary: 42}]. *)
Definition options_state : state :=
  St {[ 1%positive := Obj {[ "promiseLibrary" := VNumber 42 ]} None ]}
     unset_adapter [].

(** The message logged once connected. *)
Definition connected_message : string :=
  "MongoDB adapter has connected successfully.".

(** A computation that leaves [this] as it is, whatever its outcome. *)
Definition preserves_this {A} (c : M A) : Prop :=
  forall st r st', c st = (r, st') -> this st' = this st.

(** ** Reasoning about runs *)

Ltac unfold_monad :=
  unfold body, seq, if_, if_else, return_, stmt, to_bool, js_not, js_and,
    bool_and, get, set, delete_prop, alloc, Object_assign_empty, throw, lift,
    get_heap, get_this, modify_this, put_heap, record, mbind, M_bind, mret,
    M_ret in *.

Ltac unfold_calls :=
  unfold lib, call_method, invoke, apply_func, host_call in *; unfold_monad.

(** [step] runs the control structure and leaves calls folded; [run] also
    opens the calls. *)
Ltac step := repeat progress (unfold_monad; simpl in *).
Ltac run := repeat progress (unfold_calls; simpl in *).

Section Properties.

Variable host :
  mode -> func -> value -> list value -> gmap loc object ->
  completion value * gmap loc object.

Variable mongoose_connection : value.

(** A value that is not a string is returned as it is, and the state, hence
    the log of calls, is left as it was. *)
Lemma stringToObjectID_not_string id st :
  typeof_string id = false ->
  stringToObjectID host id st = (Normal id, st).
Proof.
  intros Hty. unfold stringToObjectID. run.
  rewrite Hty. reflexivity.
Qed.

(** On a string the validity check is made first, and only once. *)
Lemma stringToObjectID_string s st :
  stringToObjectID host (VString s) st =
  let id := VString s in
  let lg1 := (log st ++ [Invoke Call (Lib ObjectId_isValid) VUndefined [id]])%list in
  match host Call (Lib ObjectId_isValid) VUndefined [id] (heap st) with
  | (Normal b, h1) =>
      if truthy b then
        let lg2 := (lg1 ++ [Invoke Construct (Lib Schema_Types_ObjectId) VUndefined [id]])%list in
        let '(c, h2) := host Construct (Lib Schema_Types_ObjectId) VUndefined [id] h1 in
        (c, St h2 (this st) lg2)
      else (Normal id, St h1 (this st) lg1)
  | (Throw e, h1) => (Throw e, St h1 (this st) lg1)
  end.
Proof.
  unfold stringToObjectID. run.
  destruct (host Call (Lib ObjectId_isValid) VUndefined [VString s] (heap st))
    as [[b|e] h1]; run; [|reflexivity].
  destruct (truthy b); run; [|reflexivity].
  destruct (host Construct (Lib Schema_Types_ObjectId) VUndefined [VString s] h1)
    as [[v|e] h2]; reflexivity.
Qed.

(** What [stringToObjectID] does, whatever the library: a value that is not
    a string comes back as it is with no call made at all (the state and its
    log are untouched); a string is first checked, once, by
    [mongoose.Types.ObjectId.isValid]; when the check fails the string comes
    back as it is, when it passes the result is that of
    [new mongoose.Schema.Types.ObjectId(id)], called once. *)
Lemma stringToObjectID_cases id st :
  (typeof_string id = false ->
     stringToObjectID host id st = (Normal id, st)) /\
  (forall b h1,
     typeof_string id = true ->
     host Call (Lib ObjectId_isValid) VUndefined [id] (heap st) = (Normal b, h1) ->
     let checked :=
       St h1 (this st)
          (log st ++ [Invoke Call (Lib ObjectId_isValid) VUndefined [id]]) in
     (truthy b = false -> stringToObjectID host id st = (Normal id, checked)) /\
     (truthy b = true ->
        stringToObjectID host id st =
        let '(c, h2) := host Construct (Lib Schema_Types_ObjectId) VUndefined [id] h1 in
        (c, St h2 (this st)
               (log checked ++
                [Invoke Construct (Lib Schema_Types_ObjectId) VUndefined [id]])))).
Proof.
  split; [apply stringToObjectID_not_string|].
  intros b h1 Hty Hvalid checked.
  destruct id; try discriminate Hty.
  rewrite stringToObjectID_string. cbv zeta. rewrite Hvalid.
  split; intros ->; reflexivity.
Qed.

(** *** Calls *)

Lemma invoke_code m fv f rcv xs st :
  code_of (heap st) fv = Normal f ->
  invoke host m fv rcv xs st =
  apply_func host m f rcv xs
    (St (heap st) (this st) (log st ++ [Invoke m f rcv xs])).
Proof. intros Hc. unfold invoke. run. rewrite Hc. reflexivity. Qed.

Lemma apply_func_frame m f rcv xs st c st' :
  apply_func host m f rcv xs st = (c, st') ->
  this st' = this st /\ log st' = log st.
Proof.
  assert (Hhost : forall m0 f0,
            host_call host m0 f0 rcv xs st = (c, st') ->
            this st' = this st /\ log st' = log st).
  { intros m0 f0 H0. unfold host_call in H0.
    destruct (host m0 f0 rcv xs (heap st)) as [c0 h0].
    injection H0 as <- <-. split; reflexivity. }
  unfold apply_func. intros H.
  destruct m, f; try exact (Hhost _ _ H);
    try (injection H as <- <-; split; reflexivity);
    destruct rcv; try destruct (number_to_string n);
    try exact (Hhost _ _ H);
    injection H as <- <-; split; reflexivity.
Qed.

Lemma exposes_code h v k :
  exposes h v k = true ->
  exists fv f, get_in h v k = Normal fv /\ code_of h fv = Normal f.
Proof.
  unfold exposes. intros H.
  destruct (get_in h v k) as [fv|]; [|discriminate].
  destruct (code_of h fv) as [f|] eqn:Hc; [|discriminate].
  exists fv, f. split; [reflexivity | exact Hc].
Qed.

Lemma code_truthy h fv f : code_of h fv = Normal f -> truthy fv = true.
Proof. destruct fv; simpl; intros H; try discriminate H; reflexivity. Qed.

(** A method call on a value that exposes the method is logged once and
    leaves [this] alone. *)
Lemma call_method_exposed v k xs st c st' :
  exposes (heap st) v k = true ->
  call_method host v k xs st = (c, st') ->
  exists fv f,
    get_in (heap st) v k = Normal fv /\ code_of (heap st) fv = Normal f /\
    this st' = this st /\ log st' = (log st ++ [Invoke Call f v xs])%list.
Proof.
  intros Hex Hrun. apply exposes_code in Hex as (fv & f & Hget & Hcode).
  exists fv, f. split; [exact Hget|]. split; [exact Hcode|].
  unfold call_method, get, lift, get_heap, mbind, M_bind in Hrun.
  rewrite Hget in Hrun. rewrite (invoke_code _ _ f) in Hrun by exact Hcode.
  apply apply_func_frame in Hrun. exact Hrun.
Qed.

(** *** objectIDToString *)

Lemma objectIDToString_falsy id st :
  truthy id = false -> objectIDToString host id st = (Normal id, st).
Proof.
  intros Hf. unfold objectIDToString. step.
  repeat (rewrite Hf; simpl). reflexivity.
Qed.

Lemma objectIDToString_truthy id st :
  truthy id = true ->
  objectIDToString host id st =
  match get_in (heap st) id "toString" with
  | Normal fv =>
      if truthy fv then call_method host id "toString" [] st else (Normal id, st)
  | Throw e => (Throw e, st)
  end.
Proof.
  intros Ht. unfold objectIDToString. step. rewrite Ht. simpl.
  destruct (get_in (heap st) id "toString") as [fv|e]; step; [|reflexivity].
  destruct (truthy fv); step; [|reflexivity].
  destruct (call_method host id "toString" [] st) as [[x|e] st']; reflexivity.
Qed.

(** C6, amended.  [objectIDToString] answers with [id.toString()] when
    [id] is truthy and exposes that method; a falsy [id] (among them [0],
    the empty string and [false], which do expose it) comes back as it is,
    and so does an [id] whose [toString] property is falsy. *)
Theorem objectIDToString_converts_truthy_ids id st :
  (truthy id = true -> exposes (heap st) id "toString" = true ->
     objectIDToString host id st = call_method host id "toString" [] st) /\
  (truthy id = false -> objectIDToString host id st = (Normal id, st)) /\
  (forall fv, get_in (heap st) id "toString" = Normal fv -> truthy fv = false ->
     objectIDToString host id st = (Normal id, st)).
Proof.
  split; [|split].
  - intros Ht Hex. rewrite objectIDToString_truthy by exact Ht.
    apply exposes_code in Hex as (fv & f & Hget & Hcode).
    rewrite Hget, (code_truthy _ _ _ Hcode). reflexivity.
  - apply objectIDToString_falsy.
  - intros fv Hget Hfv. destruct (truthy id) eqn:Ht.
    + rewrite objectIDToString_truthy by exact Ht. rewrite Hget, Hfv. reflexivity.
    + apply objectIDToString_falsy, Ht.
Qed.

(** *** entityToObject *)

Lemma set_frame v k x st c st' :
  set v k x st = (c, st') -> this st' = this st /\ log st' = log st.
Proof.
  unfold set. intros H. destruct v; step;
    try (injection H as <- <-; split; reflexivity).
  destruct (heap st !! l) as [o|];
    [destruct (through_proto_accessor (props o) k);
       [destruct (object_or_null x)|] |];
    injection H as <- <-; split; reflexivity.
Qed.

(** An assignment under a name that does not reach the accessor stores an
    own property. *)
Lemma set_stores l k x st o :
  heap st !! l = Some o ->
  through_proto_accessor (props o) k = false ->
  set (VObject l) k x st =
  (Normal tt,
   St (<[l := Obj (<[k := x]> (props o)) (callable o)]> (heap st)) (this st) (log st)).
Proof.
  intros Hl Hk. unfold set. step. rewrite Hl, Hk. reflexivity.
Qed.

Lemma ordinary_name ps k : k <> "__proto__" -> through_proto_accessor ps k = false.
Proof.
  intros Hk. unfold through_proto_accessor.
  rewrite (proj2 (String.eqb_neq k "__proto__") Hk). reflexivity.
Qed.

(** The branch taken logs the one call it makes, and nothing else. *)
Lemma store_id_log json id k st c st2 :
  exposes (heap st) id k = true ->
  store_id host json id k st = (c, st2) ->
  exists fv f,
    get_in (heap st) id k = Normal fv /\ code_of (heap st) fv = Normal f /\
    log st2 = (log st ++ [Invoke Call f id []])%list.
Proof.
  intros Hex Hrun. unfold store_id, mbind, M_bind in Hrun.
  destruct (call_method host id k [] st) as [[x|e] st'] eqn:Hcall.
  - destruct (call_method_exposed _ _ _ _ _ _ Hex Hcall)
      as (fv & f & Hget & Hcode & _ & Hlog).
    exists fv, f. split; [exact Hget|]. split; [exact Hcode|].
    destruct (set json "_id" x st') as [[u|e] st''] eqn:Hset;
      apply set_frame in Hset as [_ Hl]; injection Hrun as <- <-;
      rewrite Hl; exact Hlog.
  - destruct (call_method_exposed _ _ _ _ _ _ Hex Hcall)
      as (fv & f & Hget & Hcode & _ & Hlog).
    exists fv, f. injection Hrun as <- <-. auto.
Qed.

Lemma entityToObject_run entity st json st1 id :
  call_method host entity "toJSON" [] st = (Normal json, st1) ->
  get_in (heap st1) entity "_id" = Normal id ->
  entityToObject host entity st =
  if truthy id then
    match get_in (heap st1) id "toHexString" with
    | Normal fh =>
        if truthy fh then store_id host json id "toHexString" st1
        else
          match get_in (heap st1) id "toString" with
          | Normal fs =>
              if truthy fs then store_id host json id "toString" st1
              else (Normal json, st1)
          | Throw e => (Throw e, st1)
          end
    | Throw e => (Throw e, st1)
    end
  else (Normal json, st1).
Proof.
  intros Hjson Hid. unfold entityToObject, store_id.
  unfold body, seq, if_else, if_, stmt, return_, to_bool, js_and, get, lift,
    get_heap, mbind, M_bind, mret, M_ret.
  rewrite Hjson. simpl. rewrite Hid. simpl.
  destruct (truthy id) eqn:Ht; simpl.
  - rewrite Hid. simpl.
    destruct (get_in (heap st1) id "toHexString") as [fh|e]; simpl; [|reflexivity].
    destruct (truthy fh); simpl.
    + rewrite Hid. simpl.
      destruct (call_method host id "toHexString" [] st1) as [[x|e] st2];
        simpl; [|reflexivity].
      destruct (set json "_id" x st2) as [[u|e] st3]; reflexivity.
    + rewrite Hid. simpl. rewrite Ht. simpl. rewrite Hid. simpl.
      destruct (get_in (heap st1) id "toString") as [fs|e]; simpl; [|reflexivity].
      destruct (truthy fs); simpl; [|reflexivity].
      rewrite Hid. simpl.
      destruct (call_method host id "toString" [] st1) as [[x|e] st2];
        simpl; [|reflexivity].
      destruct (set json "_id" x st2) as [[u|e] st3]; reflexivity.
  - repeat (rewrite ?Ht, ?Hid; simpl). reflexivity.
Qed.

(** A property that is truthy and is not a function cannot be called. *)
Lemma store_id_not_function json id k st fv e :
  get_in (heap st) id k = Normal fv ->
  code_of (heap st) fv = Throw e ->
  store_id host json id k st = (Throw e, st).
Proof.
  intros Hget Hcode.
  unfold store_id, call_method, invoke, get, lift, get_heap, mbind, M_bind.
  rewrite Hget. simpl. rewrite Hcode. reflexivity.
Qed.

(** C5, amended.  After [entity.toJSON()] has given [json], a truthy raw
    identifier that exposes [toHexString] has it called, once, and the
    result stored in [json._id], with no other call made; a truthy one whose
    [toHexString] is falsy and that exposes [toString] has that called
    instead; a truthy one with both properties falsy, and a falsy one, leave
    [json] as serialised.  The property that decides is called whenever it
    is truthy: when it is not a function, the call raises and nothing is
    returned. *)
Theorem entityToObject_normalizes_truthy_id entity st json st1 id :
  call_method host entity "toJSON" [] st = (Normal json, st1) ->
  get_in (heap st1) entity "_id" = Normal id ->
  (truthy id = true -> exposes (heap st1) id "toHexString" = true ->
     entityToObject host entity st = store_id host json id "toHexString" st1 /\
     forall c st2, entityToObject host entity st = (c, st2) ->
       exists fv f,
         get_in (heap st1) id "toHexString" = Normal fv /\
         code_of (heap st1) fv = Normal f /\
         log st2 = (log st1 ++ [Invoke Call f id []])%list) /\
  (forall fh, truthy id = true ->
     get_in (heap st1) id "toHexString" = Normal fh -> truthy fh = false ->
     exposes (heap st1) id "toString" = true ->
     entityToObject host entity st = store_id host json id "toString" st1) /\
  (forall fh fs, truthy id = true ->
     get_in (heap st1) id "toHexString" = Normal fh -> truthy fh = false ->
     get_in (heap st1) id "toString" = Normal fs -> truthy fs = false ->
     entityToObject host entity st = (Normal json, st1)) /\
  (truthy id = false -> entityToObject host entity st = (Normal json, st1)) /\
  (forall fh e, truthy id = true ->
     get_in (heap st1) id "toHexString" = Normal fh -> truthy fh = true ->
     code_of (heap st1) fh = Throw e ->
     entityToObject host entity st = (Throw e, st1)) /\
  (forall fh fs e, truthy id = true ->
     get_in (heap st1) id "toHexString" = Normal fh -> truthy fh = false ->
     get_in (heap st1) id "toString" = Normal fs -> truthy fs = true ->
     code_of (heap st1) fs = Throw e ->
     entityToObject host entity st = (Throw e, st1)).
Proof.
  intros Hjson Hid. rewrite (entityToObject_run _ _ _ _ _ Hjson Hid).
  split; [|split; [|split; [|split; [|split]]]].
  - intros Ht Hex. rewrite Ht.
    destruct (exposes_code _ _ _ Hex) as (fv & f & Hget & Hcode).
    rewrite Hget, (code_truthy _ _ _ Hcode). split; [reflexivity|].
    intros c st2 Hrun. rewrite <- Hget.
    exact (store_id_log _ _ _ _ _ _ Hex Hrun).
  - intros fh Ht Hget Hfh Hex. rewrite Ht, Hget, Hfh.
    destruct (exposes_code _ _ _ Hex) as (fv & f & Hgs & Hcode).
    rewrite Hgs, (code_truthy _ _ _ Hcode). reflexivity.
  - intros fh fs Ht Hget Hfh Hgs Hfs. rewrite Ht, Hget, Hfh, Hgs, Hfs. reflexivity.
  - intros ->. reflexivity.
  - intros fh e Ht Hget Hfh Hcode. rewrite Ht, Hget, Hfh.
    exact (store_id_not_function _ _ _ _ _ _ Hget Hcode).
  - intros fh fs e Ht Hget Hfh Hgs Hfs Hcode. rewrite Ht, Hget, Hfh, Hgs, Hfs.
    exact (store_id_not_function _ _ _ _ _ _ Hgs Hcode).
Qed.

(** *** init *)

(** The last statement of [init], on the adapter [a] reached so far. *)
Lemma init_run b svc st sch m s n :
  get_in (heap st) svc "schema" = Normal sch ->
  get_in (heap st) sch "model" = Normal m ->
  get_in (heap st) sch "schema" = Normal s ->
  get_in (heap st) sch "modelName" = Normal n ->
  init b svc st =
  let check (a : Adapter) :=
    if negb (truthy (model a)) && negb (truthy (schema a))
    then (Throw (ServiceSchemaError missing_definition), St (heap st) a (log st))
    else (Normal VUndefined, St (heap st) a (log st)) in
  let a0 := set_service svc (set_broker b (this st)) in
  if truthy m then check (set_model m a0)
  else if truthy s then
    if truthy n then check (set_modelName n (set_schema s a0))
    else (Throw (ServiceSchemaError modelName_required), St (heap st) a0 (log st))
  else check a0.
Proof.
  intros Hsch Hm Hs Hn. unfold init, service_schema. step.
  rewrite Hsch. simpl. rewrite Hm. simpl.
  destruct (truthy m) eqn:Htm; simpl.
  - rewrite Hsch. simpl. rewrite Hm. simpl. rewrite Htm. simpl.
    destruct (truthy (schema (this st))); reflexivity.
  - rewrite Hsch. simpl. rewrite Hs. simpl.
    destruct (truthy s) eqn:Hts; simpl.
    + rewrite Hsch. simpl. rewrite Hn. simpl.
      destruct (truthy n) eqn:Htn; simpl; [|reflexivity].
      rewrite Hsch. simpl. rewrite Hs. simpl.
      rewrite Hsch. simpl. rewrite Hn. simpl.
      destruct (truthy (model (this st))); simpl; [reflexivity|].
      rewrite Hts. reflexivity.
    + destruct (truthy (model (this st))); simpl; [reflexivity|].
      destruct (truthy (schema (this st))); reflexivity.
Qed.

(** C3, amended.  On an adapter with no model and no schema yet, and a
    service whose schema declares [m] as model, [s] as schema and [n] as
    modelName (each possibly [undefined]), [init] raises a
    [ServiceSchemaError] exactly when no model is declared and either a
    schema is declared without a modelName or no schema is declared; and
    whatever the outcome, [init] makes no call and leaves the store alone. *)
Theorem init_raises_iff b svc st sch m s n :
  get_in (heap st) svc "schema" = Normal sch ->
  get_in (heap st) sch "model" = Normal m ->
  get_in (heap st) sch "schema" = Normal s ->
  get_in (heap st) sch "modelName" = Normal n ->
  model (this st) = VUndefined ->
  schema (this st) = VUndefined ->
  ((exists msg st', init b svc st = (Throw (ServiceSchemaError msg), st')) <->
   truthy m = false /\
   (truthy s = true /\ truthy n = false \/ truthy s = false)) /\
  (forall c st', init b svc st = (c, st') ->
     heap st' = heap st /\ log st' = log st).
Proof.
  intros Hsch Hm Hs Hn Hmodel Hschema.
  rewrite (init_run _ _ _ _ _ _ _ Hsch Hm Hs Hn). cbv zeta.
  destruct (truthy m) eqn:Htm, (truthy s) eqn:Hts, (truthy n) eqn:Htn;
    simpl; rewrite ?Htm, ?Hts, ?Hmodel, ?Hschema; simpl;
    (split;
     [ split;
       [ intros (msg & st' & H); try discriminate H; intuition congruence
       | intros H; try (exfalso; intuition congruence); eauto ]
     | intros c st' H; injection H as <- <-; split; reflexivity ]).
Qed.

Lemma get_in_same_receiver h v k k' x :
  k' <> "__proto__" ->
  get_in h v k = Normal x -> exists y, get_in h v k' = Normal y.
Proof.
  intros Hk. apply String.eqb_neq in Hk.
  destruct v; simpl; unfold proto_read, through_proto_accessor; rewrite ?Hk;
    simpl; try discriminate; eauto.
  destruct (h !! l); [eauto | discriminate].
Qed.

Lemma init_normal_reads b svc st v st' :
  init b svc st = (Normal v, st') ->
  exists sch m s n,
    get_in (heap st) svc "schema" = Normal sch /\
    get_in (heap st) sch "model" = Normal m /\
    get_in (heap st) sch "schema" = Normal s /\
    get_in (heap st) sch "modelName" = Normal n.
Proof.
  intros H. unfold init, service_schema in H. step.
  destruct (get_in (heap st) svc "schema") as [sch|e] eqn:Hsch;
    simpl in H; [|discriminate H].
  destruct (get_in (heap st) sch "model") as [m|e] eqn:Hm;
    simpl in H; [|discriminate H].
  destruct (get_in_same_receiver _ _ _ "schema" _ ltac:(discriminate) Hm) as [s Hs].
  destruct (get_in_same_receiver _ _ _ "modelName" _ ltac:(discriminate) Hm) as [n Hn].
  exists sch, m, s, n. auto.
Qed.

(** C4.  When [init] returns on an adapter that had no model, schema or
    modelName, exactly one of the two is set afterwards: the model, with
    schema and modelName still unset, or the pair of schema and modelName,
    with the model still unset.  A service that declares a model, whether or
    not it also declares a schema, gets the first. *)
Theorem init_resolves_exactly_one b svc st v st' :
  model (this st) = VUndefined ->
  schema (this st) = VUndefined ->
  modelName (this st) = VUndefined ->
  init b svc st = (Normal v, st') ->
  let a := this st' in
  (truthy (model a) = true /\ schema a = VUndefined /\ modelName a = VUndefined \/
   model a = VUndefined /\ truthy (schema a) = true /\ truthy (modelName a) = true) /\
  (forall sch m,
     get_in (heap st) svc "schema" = Normal sch ->
     get_in (heap st) sch "model" = Normal m ->
     truthy m = true ->
     model a = m /\ schema a = VUndefined /\ modelName a = VUndefined).
Proof.
  intros Hmodel Hschema Hname Hrun.
  destruct (init_normal_reads _ _ _ _ _ Hrun) as (sch & m & s & n & Hsch & Hm & Hs & Hn).
  rewrite (init_run _ _ _ _ _ _ _ Hsch Hm Hs Hn) in Hrun. cbv zeta in Hrun.
  destruct (truthy m) eqn:Htm, (truthy s) eqn:Hts, (truthy n) eqn:Htn;
    simpl in Hrun; rewrite ?Htm, ?Hts, ?Hmodel, ?Hschema in Hrun;
    simpl in Hrun; try discriminate Hrun;
    injection Hrun as <- <-; simpl;
    (split;
     [ auto
     | intros sch' m' Hsch' Hm' Htm'; rewrite Hsch in Hsch';
       injection Hsch' as <-; rewrite Hm in Hm'; injection Hm' as <-;
       try congruence; auto ]).
Qed.

(** *** connect *)

Lemma same_resolution_refl a : same_resolution a a.
Proof. repeat split. Qed.

Lemma same_resolution_trans a b c :
  same_resolution a b -> same_resolution b c -> same_resolution a c.
Proof. unfold same_resolution. intuition congruence. Qed.

Lemma keeps_this {A} (c : M A) :
  (forall st r st', c st = (r, st') -> this st' = this st) -> keeps_resolution c.
Proof. intros H st r st' Hrun. rewrite (H _ _ _ Hrun). apply same_resolution_refl. Qed.

Lemma keeps_ret {A} (a : A) : keeps_resolution (mret a).
Proof. apply keeps_this. intros st r st' H. injection H as <- <-. reflexivity. Qed.

Lemma keeps_bind {A B} (c : M A) (f : A -> M B) :
  keeps_resolution c -> (forall a, keeps_resolution (f a)) ->
  keeps_resolution (c ≫= f).
Proof.
  intros Hc Hf st r st' Hrun. unfold mbind, M_bind in Hrun.
  destruct (c st) as [[a|e] st1] eqn:Hc1.
  - eapply same_resolution_trans; [eapply Hc, Hc1 | eapply Hf, Hrun].
  - injection Hrun as <- <-. eapply Hc, Hc1.
Qed.

Lemma keeps_get v k : keeps_resolution (get v k).
Proof.
  apply keeps_this. intros st r st' H. unfold get in H. step.
  injection H as <- <-. reflexivity.
Qed.

Lemma keeps_get_this : keeps_resolution get_this.
Proof. apply keeps_this. intros st r st' H. injection H as <- <-. reflexivity. Qed.

Lemma keeps_alloc o : keeps_resolution (alloc o).
Proof.
  apply keeps_this. intros st r st' H. unfold alloc in H. step.
  injection H as <- <-. reflexivity.
Qed.

Lemma keeps_invoke m fv rcv xs : keeps_resolution (invoke host m fv rcv xs).
Proof.
  apply keeps_this. intros st r st' H.
  destruct (code_of (heap st) fv) as [f|e] eqn:Hc.
  - rewrite (invoke_code _ _ _ _ _ _ Hc) in H.
    apply apply_func_frame in H as [Ht _]. exact Ht.
  - unfold invoke in H. step. rewrite Hc in H. injection H as <- <-. reflexivity.
Qed.

Lemma keeps_call_method rcv k xs : keeps_resolution (call_method host rcv k xs).
Proof.
  unfold call_method. apply keeps_bind; [apply keeps_get|].
  intros fv. apply keeps_invoke.
Qed.

Lemma keeps_set_db v : keeps_resolution (modify_this (set_db v)).
Proof. intros st r st' H. injection H as <- <-. repeat split. Qed.

Lemma keeps_stmt {A R} (c : M A) : keeps_resolution c -> keeps_resolution (@stmt A R c).
Proof. intros H. unfold stmt. apply keeps_bind; [exact H|]. intros _. apply keeps_ret. Qed.

Lemma keeps_seq {R} (s1 s2 : M (flow R)) :
  keeps_resolution s1 -> keeps_resolution s2 -> keeps_resolution (s1 ;;; s2).
Proof.
  intros H1 H2. unfold seq. apply keeps_bind; [exact H1|].
  intros [|r]; [exact H2 | apply keeps_ret].
Qed.

Lemma keeps_body s : keeps_resolution s -> keeps_resolution (body s).
Proof.
  intros H. unfold body. apply keeps_bind; [exact H|].
  intros [|r]; apply keeps_ret.
Qed.

Lemma keeps_db_on ev : keeps_resolution (db_on host ev).
Proof.
  unfold db_on. apply keeps_bind; [apply keeps_get_this|]. intros a.
  apply keeps_bind; [apply keeps_get|]. intros fv.
  apply keeps_bind; [apply keeps_alloc|]. intros f.
  apply keeps_invoke.
Qed.

(** The reaction run on a successful connection sets [db] and nothing else
    of [this]. *)
Lemma keeps_connected : keeps_resolution (connected host mongoose_connection).
Proof.
  unfold connected. apply keeps_body.
  repeat apply keeps_seq; apply keeps_stmt;
    try apply keeps_db_on; try apply keeps_set_db.
  apply keeps_bind; [apply keeps_get_this|]. intros a.
  apply keeps_bind; [apply keeps_get|]. intros logger.
  apply keeps_call_method.
Qed.

Lemma keeps_then (k : value -> M value) s :
  (forall v, keeps_resolution (k v)) -> keeps_resolution (then_ k s).
Proof.
  intros Hk st r st' H. destruct s as [v|e]; simpl in H.
  - destruct (k v st) as [[x|e] st1] eqn:Hrun; injection H as <- <-;
      eapply Hk, Hrun.
  - injection H as <- <-. apply same_resolution_refl.
Qed.

(** The run of [connect]: one call of [mongoose.connect]; the promise it
    answers is chained when it has a [then] that is a function; an exception
    goes up. *)
Lemma connect_run st :
  connect host mongoose_connection st =
  let xs := [uri (this st); opts (this st)] in
  let '(c, h1) := host Call (Lib Mongoose_connect) VUndefined xs (heap st) in
  let st1 :=
    St h1 (this st) (log st ++ [Invoke Call (Lib Mongoose_connect) VUndefined xs]) in
  match c with
  | Normal p =>
      match get_in h1 p "then" with
      | Normal fv =>
          match code_of h1 fv with
          | Normal _ =>
              (Normal (Return (then_ (fun _ => connected host mongoose_connection))), st1)
          | Throw e => (Throw e, st1)
          end
      | Throw e => (Throw e, st1)
      end
  | Throw e => (Throw e, st1)
  end.
Proof.
  unfold connect, thenable. run.
  destruct (host Call (Lib Mongoose_connect) VUndefined _ (heap st)) as [[p|e] h1];
    simpl; [|reflexivity].
  destruct (get_in h1 p "then") as [fv|e]; simpl; [|reflexivity].
  destruct (code_of h1 fv) as [f|e]; reflexivity.
Qed.

Lemma connect_throws st e h1 :
  host Call (Lib Mongoose_connect) VUndefined [uri (this st); opts (this st)] (heap st)
    = (Throw e, h1) ->
  fst (connect host mongoose_connection st) = Throw e.
Proof. intros H. rewrite connect_run. cbv zeta. rewrite H. reflexivity. Qed.


(** What [mongoose.connect] answers has to be chained by [then]: a value
    whose [then] is not a function makes [connect] raise a [TypeError]. *)
Lemma connect_not_thenable st p h1 fv :
  host Call (Lib Mongoose_connect) VUndefined [uri (this st); opts (this st)] (heap st)
    = (Normal p, h1) ->
  get_in h1 p "then" = Normal fv ->
  code_of h1 fv = Throw TypeError ->
  fst (connect host mongoose_connection st) = Throw TypeError.
Proof.
  intros H Hget Hcode. rewrite connect_run. cbv zeta.
  rewrite H, Hget, Hcode. reflexivity.
Qed.

(** C8.  [connect] never reaches the statement that follows its [return]:
    it ends by returning the chained promise, or by an exception; the one
    call it has made is that of [mongoose.connect], not [mongoose.model],
    and [this] is exactly as before; when the promise is settled later,
    whichever way, [model], [schema] and [modelName] are still what they
    were. *)
Theorem connect_never_builds_model st c st' :
  connect host mongoose_connection st = (c, st') ->
  c <> Normal Next /\
  this st' = this st /\
  log st' = (log st ++ [Invoke Call (Lib Mongoose_connect) VUndefined
                          [uri (this st); opts (this st)]])%list /\
  (forall fut s st2 r st3,
     c = Normal (Return fut) ->
     fut s st2 = (r, st3) ->
     same_resolution (this st2) (this st3)).
Proof.
  rewrite connect_run. cbv zeta.
  destruct (host Call (Lib Mongoose_connect) VUndefined _ (heap st)) as [[p|e] h1];
    [destruct (get_in h1 p "then") as [fv|e];
       [destruct (code_of h1 fv) as [f|e]|]|];
    intros H; injection H as <- <-; (split; [discriminate|]);
    (split; [reflexivity|]); (split; [reflexivity|]);
    intros fut s st2 r st3 Hc Hfut; try discriminate Hc.
  injection Hc as <-. revert Hfut. apply keeps_then.
  intros _. apply keeps_connected.
Qed.


(** *** afterRetrieveTransformID *)

Lemma eqb_id_false (k : string) : k <> "_id" -> String.eqb k "_id" = false.
Proof. apply String.eqb_neq. Qed.

(** The run of [afterRetrieveTransformID] on a record of the store. *)
Lemma afterRetrieveTransformID_run l idField st o :
  heap st !! l = Some o ->
  afterRetrieveTransformID host l idField st =
  if String.eqb idField "_id" then (Normal (VObject l), st)
  else
    match objectIDToString host (obj_get o "_id") st with
    | (Normal x, st1) =>
        match heap st1 !! l with
        | Some o1 =>
            if through_proto_accessor (props o1) idField then
              if object_or_null x then (Throw Unmodelled, st1)
              else
                (Normal (VObject l),
                 St (<[l := Obj (delete "_id" (props o1)) (callable o1)]> (heap st1))
                    (this st1) (log st1))
            else
              (Normal (VObject l),
               St (<[l := Obj (delete "_id" (<[idField := x]> (props o1))) (callable o1)]>
                     (heap st1))
                  (this st1) (log st1))
        | None => (Throw BadRef, st1)
        end
    | (Throw e, st1) => (Throw e, st1)
    end.
Proof.
  intros Hl. unfold afterRetrieveTransformID. step.
  destruct (String.eqb idField "_id"); simpl; [reflexivity|].
  rewrite Hl. simpl.
  destruct (objectIDToString host (obj_get o "_id") st) as [[x|e] st1];
    simpl; [|reflexivity].
  destruct (heap st1 !! l) as [o1|] eqn:Hl1; simpl; [|reflexivity].
  destruct (through_proto_accessor (props o1) idField); simpl.
  - destruct (object_or_null x); simpl; [reflexivity|].
    rewrite Hl1. reflexivity.
  - rewrite lookup_insert_eq. simpl. rewrite insert_insert_eq. reflexivity.
Qed.


(** A failure of the conversion is not caught. *)
Lemma afterRetrieveTransformID_throws l idField st o e st1 :
  idField <> "_id" ->
  heap st !! l = Some o ->
  objectIDToString host (obj_get o "_id") st = (Throw e, st1) ->
  afterRetrieveTransformID host l idField st = (Throw e, st1).
Proof.
  intros Hne Hl Hconv.
  rewrite (afterRetrieveTransformID_run _ _ _ _ Hl), (eqb_id_false _ Hne), Hconv.
  reflexivity.
Qed.

(** *** beforeSaveTransformID *)


(** The run of [beforeSaveTransformID] on a record of the store, for a field
    name other than [__proto__]: [finish ps] is what follows the copy, whose
    properties are [ps]. *)
Lemma beforeSaveTransformID_run l idField st o :
  heap st !! l = Some o ->
  idField <> "__proto__" ->
  beforeSaveTransformID host l idField st =
  if negb (String.eqb idField "_id") && defined (obj_get o idField) then
    let l' := fresh (dom (heap st)) in
    let finish (ps : gmap string value) :=
      match stringToObjectID host (obj_get o idField)
              (St (<[l' := Obj ps None]> (heap st)) (this st) (log st)) with
      | (Normal x, st1) =>
          match heap st1 !! l' with
          | Some o' =>
              (Normal (VObject l'),
               St (<[l' := Obj (delete idField (<["_id" := x]> (props o'))) (callable o')]>
                     (heap st1))
                  (this st1) (log st1))
          | None => (Throw BadRef, st1)
          end
      | (Throw e, st1) => (Throw e, st1)
      end in
    match props o !! "__proto__" with
    | None => finish (props o)
    | Some p =>
        if object_or_null p then (Throw Unmodelled, st)
        else finish (delete "__proto__" (props o))
    end
  else (Normal (VObject l), st).
Proof.
  intros Hl Hproto. unfold beforeSaveTransformID. step.
  destruct (String.eqb idField "_id"); simpl; [reflexivity|].
  rewrite Hl. simpl. rewrite (ordinary_name _ _ Hproto). simpl.
  destruct (defined (obj_get o idField)); simpl; [|reflexivity].
  rewrite Hl. simpl.
  assert (Hfresh : heap st !! fresh (dom (heap st)) = None)
    by (apply not_elem_of_dom, is_fresh).
  assert (Hne : fresh (dom (heap st)) <> l) by (intros E; congruence).
  destruct (props o !! "__proto__") as [p|]; simpl.
  - destruct (object_or_null p); simpl; [reflexivity|].
    rewrite lookup_insert_ne by exact Hne. rewrite Hl. simpl.
    rewrite (ordinary_name _ _ Hproto). simpl.
    destruct (stringToObjectID host (obj_get o idField) _) as [[x|e] st1];
      simpl; [|reflexivity].
    destruct (heap st1 !! fresh (dom (heap st))) as [o'|]; simpl; [|reflexivity].
    rewrite lookup_insert_eq. simpl. rewrite insert_insert_eq. reflexivity.
  - rewrite lookup_insert_ne by exact Hne. rewrite Hl. simpl.
    rewrite (ordinary_name _ _ Hproto). simpl.
    destruct (stringToObjectID host (obj_get o idField) _) as [[x|e] st1];
      simpl; [|reflexivity].
    destruct (heap st1 !! fresh (dom (heap st))) as [o'|]; simpl; [|reflexivity].
    rewrite lookup_insert_eq. simpl. rewrite insert_insert_eq. reflexivity.
Qed.

Lemma defined_true v : v <> VUndefined -> defined v = true.
Proof. destruct v; simpl; congruence. Qed.




End Properties.

(** ** Runs on the sample host *)

(** C7.  The code at a string that passes the validity check: the check is
    made with [mongoose.Types.ObjectId.isValid], and what is returned is
    built by [new mongoose.Schema.Types.ObjectId(id)], the schema type,
    which takes the string for the path it describes: the result is the
    schema type object [{path: "507f1f77bcf86cd799439011"}], not an
    identifier made from the string. *)
Theorem stringToObjectID_builds_schema_type :
  stringToObjectID sample_host (VString "507f1f77bcf86cd799439011") empty_state =
  (Normal (VObject 1),
   St {[ 1%positive := Obj {[ "path" := VString "507f1f77bcf86cd799439011" ]} None ]}
      fresh_adapter
      [Invoke Call (Lib ObjectId_isValid) VUndefined
         [VString "507f1f77bcf86cd799439011"];
       Invoke Construct (Lib Schema_Types_ObjectId) VUndefined
         [VString "507f1f77bcf86cd799439011"]]).
Proof.
  rewrite (proj2 (proj2 (stringToObjectID_cases sample_host
                           (VString "507f1f77bcf86cd799439011") empty_state)
                    (VBool true) ∅ eq_refl eq_refl) eq_refl).
  vm_compute. reflexivity.
Qed.

Example stringToObjectID_non_string :
  stringToObjectID sample_host (VNumber 7) empty_state
    = (Normal (VNumber 7), empty_state).
Proof.
  apply (proj1 (stringToObjectID_cases sample_host (VNumber 7) empty_state)).
  reflexivity.
Qed.








Lemma entityToObject_normalizes_truthy_id_witness :
  (entityToObject sample_host (VObject 1) doc_state
     = store_id sample_host (VObject 5) (VObject 3) "toHexString" doc_serialised /\
   log (snd (entityToObject sample_host (VObject 1) doc_state))
     = [Invoke Call (Host 0) (VObject 1) []; Invoke Call (Host 1) (VObject 3) []]) /\
  entityToObject sample_host (VObject 1) zero_state
    = (Normal (VObject 3), zero_serialised).
Proof.
  split.
  - destruct (proj1 (entityToObject_normalizes_truthy_id sample_host (VObject 1)
                       doc_state (VObject 5) doc_serialised (VObject 3)
                       ltac:(vm_compute; reflexivity) ltac:(vm_compute; reflexivity))
                eq_refl ltac:(vm_compute; reflexivity)) as [Hrun _].
    split; [exact Hrun|]. rewrite Hrun. vm_compute. reflexivity.
  - apply (proj1 (proj2 (proj2 (proj2
             (entityToObject_normalizes_truthy_id sample_host (VObject 1)
                zero_state (VObject 3) zero_serialised (VNumber 0)
                ltac:(vm_compute; reflexivity) ltac:(vm_compute; reflexivity)))))).
    reflexivity.
Defined.

(** As the claim C5 is worded it fails on the identifier [0]: the number
    has no [toHexString] and exposes [toString], so the claim has
    [json._id] become the string ["0"]; [entityToObject] leaves the
    serialised [0] in place and calls nothing. *)
Lemma entityToObject_zero_id_counterexample :
  ~ (forall host entity st json st1 id x st2,
       call_method host entity "toJSON" [] st = (Normal json, st1) ->
       get_in (heap st1) entity "_id" = Normal id ->
       exposes (heap st1) id "toHexString" = false ->
       exposes (heap st1) id "toString" = true ->
       call_method host id "toString" [] st1 = (Normal x, st2) ->
       exists l st3 o,
         entityToObject host entity st = (Normal (VObject l), st3) /\
         heap st3 !! l = Some o /\
         props o !! "_id" = Some x).
Proof.
  intros H.
  destruct (H sample_host (VObject 1) zero_state (VObject 3) zero_serialised
              (VNumber 0) (VString "0")
              (snd (call_method sample_host (VNumber 0) "toString" [] zero_serialised))
              ltac:(vm_compute; reflexivity) ltac:(vm_compute; reflexivity)
              ltac:(vm_compute; reflexivity) ltac:(vm_compute; reflexivity)
              ltac:(vm_compute; reflexivity))
    as (l & st3 & o & Hrun & Hl & Hid).
  vm_compute in Hrun. injection Hrun as <- <-.
  vm_compute in Hl. injection Hl as <-.
  vm_compute in Hid. discriminate Hid.
Qed.

Lemma init_raises_iff_witness :
  (exists msg st',
     init VNull (VObject 1) (service_state ∅) = (Throw (ServiceSchemaError msg), st')) /\
  heap (snd (init VNull (VObject 1) (service_state schema_cfg)))
    = heap (service_state schema_cfg).
Proof.
  split.
  - apply (proj1 (init_raises_iff VNull (VObject 1) (service_state ∅) (VObject 2)
                    VUndefined VUndefined VUndefined
                    ltac:(vm_compute; reflexivity) ltac:(vm_compute; reflexivity) ltac:(vm_compute; reflexivity) ltac:(vm_compute; reflexivity) eq_refl eq_refl)).
    split; [reflexivity | right; reflexivity].
  - apply (proj2 (init_raises_iff VNull (VObject 1) (service_state schema_cfg)
                    (VObject 2) VUndefined (VObject 3) (VString "fakeModel")
                    ltac:(vm_compute; reflexivity) ltac:(vm_compute; reflexivity) ltac:(vm_compute; reflexivity) ltac:(vm_compute; reflexivity) eq_refl eq_refl)
             (fst (init VNull (VObject 1) (service_state schema_cfg)))).
    apply surjective_pairing.
Defined.

(** As the claim C3 is worded it fails on a service that declares a model
    and a schema and no modelName: the schema is declared without a
    modelName, and [init] takes the model and raises nothing. *)
Lemma init_model_and_schema_counterexample :
  ~ (forall b svc st sch m s n,
       get_in (heap st) svc "schema" = Normal sch ->
       get_in (heap st) sch "model" = Normal m ->
       get_in (heap st) sch "schema" = Normal s ->
       get_in (heap st) sch "modelName" = Normal n ->
       model (this st) = VUndefined ->
       schema (this st) = VUndefined ->
       ((exists msg st', init b svc st = (Throw (ServiceSchemaError msg), st')) <->
        (truthy s = true /\ truthy n = false) \/
        (truthy m = false /\ truthy s = false))).
Proof.
  intros H.
  destruct (proj2 (H VNull (VObject 1) (service_state both_cfg) (VObject 2)
                     (VObject 3) (VObject 3) VUndefined
                     ltac:(vm_compute; reflexivity) ltac:(vm_compute; reflexivity) ltac:(vm_compute; reflexivity) ltac:(vm_compute; reflexivity) eq_refl eq_refl))
    as (msg & st' & Hrun).
  - left. split; reflexivity.
  - vm_compute in Hrun. discriminate Hrun.
Qed.

Lemma init_resolves_exactly_one_witness :
  let a := this (snd (init VNull (VObject 1) (service_state both_cfg))) in
  model a = VObject 3 /\ schema a = VUndefined /\ modelName a = VUndefined.
Proof.
  apply (proj2 (init_resolves_exactly_one VNull (VObject 1) (service_state both_cfg)
                  VUndefined (snd (init VNull (VObject 1) (service_state both_cfg)))
                  eq_refl eq_refl eq_refl ltac:(vm_compute; reflexivity))
           (VObject 2) (VObject 3) ltac:(vm_compute; reflexivity) ltac:(vm_compute; reflexivity) eq_refl).
Defined.

(** When [mongoose.connect] itself raises, so does [connect]. *)
Example connect_raise_goes_up :
  fst (connect failing_host (VObject 6) pending_state)
    = Throw (Thrown (VString "bad uri")).
Proof. apply (connect_throws _ _ _ _ (heap pending_state)). reflexivity. Qed.

Lemma connect_never_builds_model_witness :
  this (snd (connect sample_host (VObject 6) pending_state)) = this pending_state /\
  forall s r st3,
    then_ (fun _ => connected sample_host (VObject 6)) s pending_state = (r, st3) ->
    same_resolution (this pending_state) (this st3).
Proof.
  destruct (connect_never_builds_model sample_host (VObject 6) pending_state
              (fst (connect sample_host (VObject 6) pending_state))
              (snd (connect sample_host (VObject 6) pending_state))
              (surjective_pairing _)) as (_ & Hthis & _ & Hfut).
  split; [exact Hthis|].
  intros s r st3. apply Hfut. reflexivity.
Defined.



(** As the claim C6 is worded it fails at [0]: the number exposes
    [toString], whose result is the string ["0"], and [objectIDToString]
    answers the number itself. *)
Lemma objectIDToString_zero_counterexample :
  ~ (forall host id st,
       exposes (heap st) id "toString" = true ->
       fst (objectIDToString host id st)
         = fst (call_method host id "toString" [] st)).
Proof.
  intros H. specialize (H sample_host (VNumber 0) empty_state eq_refl).
  change (Normal (VNumber 0) = Normal (VString "0")) in H.
  discriminate H.
Qed.

Lemma objectIDToString_converts_truthy_ids_witness :
  objectIDToString sample_host (VNumber 7) empty_state
    = (Normal (VString "7"),
       St ∅ fresh_adapter [Invoke Call Number_prototype_toString (VNumber 7) []]) /\
  objectIDToString sample_host (VBool false) empty_state
    = (Normal (VBool false), empty_state) /\
  objectIDToString sample_host VNull empty_state = (Normal VNull, empty_state).
Proof.
  split; [|split].
  - rewrite (proj1 (objectIDToString_converts_truthy_ids sample_host
                      (VNumber 7) empty_state) eq_refl eq_refl).
    reflexivity.
  - apply (proj1 (proj2 (objectIDToString_converts_truthy_ids sample_host
                           (VBool false) empty_state))).
    reflexivity.
  - apply (proj1 (proj2 (objectIDToString_converts_truthy_ids sample_host
                           VNull empty_state))).
    reflexivity.
Defined.


(** ** Further properties of the methods *)

Section MoreProperties.

Variable host :
  mode -> func -> value -> list value -> gmap loc object ->
  completion value * gmap loc object.

Variable mongoose_connection : value.

(** *** Conversions on primitive values and plain objects *)

Lemma toString_of_primitive h v :
  primitive v = true -> truthy v = true ->
  (forall n, v = VNumber n -> safe_integer n = true) ->
  exists f,
    get_in h v "toString" = Normal (VNative f) /\
    forall st,
      apply_func host Call f v [] st = (Normal (VString (string_form v)), st).
Proof.
  intros Hp Ht Hsafe. destruct v; try discriminate.
  - exists Boolean_prototype_toString. split; [|reflexivity].
    simpl. unfold proto_read, proto_get, Boolean_prototype. simpl.
    rewrite lookup_insert_eq. reflexivity.
  - exists Number_prototype_toString. split.
    + simpl. unfold proto_read, proto_get, Number_prototype. simpl.
      rewrite lookup_insert_eq. reflexivity.
    + intros st. simpl. unfold number_to_string.
      rewrite (Hsafe n eq_refl). reflexivity.
  - exists String_prototype_toString. split; [|reflexivity].
    simpl. unfold proto_read, proto_get, String_prototype. simpl.
    rewrite lookup_insert_eq. reflexivity.
Qed.

Lemma call_method_native v k f xs st :
  get_in (heap st) v k = Normal (VNative f) ->
  call_method host v k xs st =
  apply_func host Call f v xs
    (St (heap st) (this st) (log st ++ [Invoke Call f v xs])).
Proof.
  intros Hget. unfold call_method, get, lift, get_heap, mbind, M_bind.
  rewrite Hget. apply invoke_code. reflexivity.
Qed.

(** X1.  On a primitive value, a number being a safe integer,
    [objectIDToString] never raises and touches neither the store nor
    [this]: a falsy one comes back as it is, a truthy one as its string
    form; in particular every string comes back equal to itself. *)
Theorem objectIDToString_primitive id st :
  primitive id = true ->
  (forall n, id = VNumber n -> safe_integer n = true) ->
  exists st',
    objectIDToString host id st =
      (Normal (if truthy id then VString (string_form id) else id), st') /\
    heap st' = heap st /\ this st' = this st /\
    (forall s, id = VString s -> fst (objectIDToString host id st) = Normal id).
Proof.
  intros Hp Hsafe. destruct (truthy id) eqn:Ht.
  - destruct (toString_of_primitive (heap st) id Hp Ht Hsafe) as (f & Hget & Hrun).
    rewrite (objectIDToString_truthy host id st Ht), Hget. simpl.
    rewrite (call_method_native _ _ _ _ _ Hget), Hrun.
    eexists. split; [reflexivity|]. split; [reflexivity|].
    split; [reflexivity|]. intros s Hs. subst id. reflexivity.
  - rewrite (objectIDToString_falsy host id st Ht).
    exists st. split; [reflexivity|]. split; [reflexivity|].
    split; [reflexivity|]. intros s Hs. reflexivity.
Qed.

(** X2.  An object of the store that is not callable and has no [toString]
    of its own is converted by the inherited [Object.prototype.toString]:
    the answer is the string ["[object Object]"]. *)
Theorem objectIDToString_plain_object l o st :
  heap st !! l = Some o ->
  callable o = None ->
  props o !! "toString" = None ->
  objectIDToString host (VObject l) st =
  (Normal (VString "[object Object]"),
   St (heap st) (this st)
      (log st ++ [Invoke Call Object_prototype_toString (VObject l) []])).
Proof.
  intros Hl Hc Hown.
  assert (Hget : get_in (heap st) (VObject l) "toString"
                 = Normal (VNative Object_prototype_toString)).
  { simpl. rewrite Hl. unfold obj_get, inherited. rewrite Hown, Hc.
    unfold Object_prototype. rewrite lookup_insert_eq. reflexivity. }
  rewrite (objectIDToString_truthy host (VObject l) st eq_refl), Hget. simpl.
  rewrite (call_method_native _ _ _ _ _ Hget).
  unfold apply_func, get_heap, mbind, M_bind, mret, M_ret. simpl.
  rewrite Hl. destruct o as [ps c]. simpl in Hc. subst c. reflexivity.
Qed.

(** X3.  When the validity check of the library raises, [stringToObjectID]
    raises the same exception and the constructor is never called: the
    check is the only call in the log. *)
Theorem stringToObjectID_check_raises s st e h1 :
  host Call (Lib ObjectId_isValid) VUndefined [VString s] (heap st) = (Throw e, h1) ->
  stringToObjectID host (VString s) st =
  (Throw e,
   St h1 (this st)
      (log st ++ [Invoke Call (Lib ObjectId_isValid) VUndefined [VString s]])).
Proof.
  intros H. rewrite stringToObjectID_string. cbv zeta. rewrite H. reflexivity.
Qed.

(** *** The two transforms: edge cases and composition *)


Lemma own_id_none o : props o !! "_id" = None -> obj_get o "_id" = VUndefined.
Proof.
  intros H. unfold obj_get, inherited. rewrite H.
  destruct (callable o); vm_compute; reflexivity.
Qed.

Lemma afterRetrieveTransformID_without_id l idField st o :
  heap st !! l = Some o ->
  callable o = None ->
  idField <> "_id" ->
  idField <> "__proto__" ->
  props o !! "_id" = None ->
  afterRetrieveTransformID host l idField st =
  (Normal (VObject l),
   St (<[l := Obj (<[idField := VUndefined]> (props o)) None]> (heap st))
      (this st) (log st)).
Proof.
  intros Hl Hc Hne Hproto Hid.
  rewrite (afterRetrieveTransformID_run host _ _ _ _ Hl).
  rewrite (eqb_id_false _ Hne), (own_id_none _ Hid).
  rewrite (objectIDToString_falsy host VUndefined st eq_refl), Hl.
  rewrite (ordinary_name _ _ Hproto), Hc.
  rewrite delete_insert_ne by congruence.
  rewrite (delete_id _ _ Hid). reflexivity.
Qed.

(** X20.  On a record that is not callable and has no property of its own
    named [__proto__], for a field name other than [__proto__]: when
    [entry[idField]] is defined and is not a string,
    [beforeSaveTransformID] calls nothing: the new record carries that very
    value under ["_id"], and the state differs from the one before by the
    new record only. *)
Theorem beforeSaveTransformID_non_string_value l idField st o :
  heap st !! l = Some o ->
  callable o = None ->
  props o !! "__proto__" = None ->
  idField <> "_id" ->
  idField <> "__proto__" ->
  obj_get o idField <> VUndefined ->
  typeof_string (obj_get o idField) = false ->
  let l' := fresh (dom (heap st)) in
  beforeSaveTransformID host l idField st =
  (Normal (VObject l'),
   St (<[l' := Obj (delete idField (<["_id" := obj_get o idField]> (props o))) None]>
         (heap st))
      (this st) (log st)).
Proof.
  intros Hl Hc Hown Hne Hproto Hdef Hty l'.
  rewrite (beforeSaveTransformID_run host _ _ _ _ Hl Hproto).
  rewrite (eqb_id_false _ Hne), (defined_true _ Hdef), Hown. simpl. fold l'.
  rewrite (stringToObjectID_not_string host _ _ Hty). simpl.
  rewrite lookup_insert_eq. simpl. rewrite insert_insert_eq. reflexivity.
Qed.

(** X5.  On a record that is not callable and has no ["_id"],
    [afterRetrieveTransformID] with a field name other than ["_id"] and
    [__proto__] stores [undefined] under that name, overwriting what was
    there, and calls nothing. *)
Theorem afterRetrieveTransformID_missing_id l idField st o :
  heap st !! l = Some o ->
  callable o = None ->
  idField <> "_id" ->
  idField <> "__proto__" ->
  props o !! "_id" = None ->
  afterRetrieveTransformID host l idField st =
  (Normal (VObject l),
   St (<[l := Obj (<[idField := VUndefined]> (props o)) None]> (heap st))
      (this st) (log st)).
Proof. apply afterRetrieveTransformID_without_id. Qed.

(** X6.  [afterRetrieveTransformID] is not idempotent.  For a field name
    other than ["_id"] and [__proto__], on a record that is not callable:
    once it has moved ["_id"] to [idField], a second application on the same
    record replaces the identifier stored under [idField] by [undefined]. *)
Theorem afterRetrieveTransformID_twice l idField st v st1 :
  idField <> "_id" ->
  idField <> "__proto__" ->
  afterRetrieveTransformID host l idField st = (Normal v, st1) ->
  (forall o1, heap st1 !! l = Some o1 -> callable o1 = None) ->
  exists o1 st2 o2,
    heap st1 !! l = Some o1 /\
    afterRetrieveTransformID host l idField st1 = (Normal (VObject l), st2) /\
    heap st2 !! l = Some o2 /\
    props o2 !! idField = Some VUndefined /\
    props o2 !! "_id" = None.
Proof.
  intros Hne Hproto Hrun Hrecord.
  destruct (heap st !! l) as [o|] eqn:Hl.
  - rewrite (afterRetrieveTransformID_run host _ _ _ _ Hl), (eqb_id_false _ Hne) in Hrun.
    destruct (objectIDToString host (obj_get o "_id") st) as [[x|e] st'];
      [|discriminate Hrun].
    destruct (heap st' !! l) as [o'|]; [|discriminate Hrun].
    rewrite (ordinary_name _ _ Hproto) in Hrun.
    injection Hrun as <- <-. simpl in Hrecord.
    pose proof (Hrecord _ (lookup_insert_eq _ _ _)) as Hc. simpl in Hc.
    eexists. eexists. eexists. split; [apply lookup_insert_eq|].
    split.
    + apply afterRetrieveTransformID_without_id;
        [apply lookup_insert_eq | exact Hc | exact Hne | exact Hproto
        | apply lookup_delete_eq].
    + simpl. split; [apply lookup_insert_eq|]. simpl.
      split; [apply lookup_insert_eq|].
      rewrite lookup_insert_ne by exact Hne. apply lookup_delete_eq.
  - unfold afterRetrieveTransformID in Hrun. step.
    rewrite (eqb_id_false _ Hne) in Hrun. simpl in Hrun.
    rewrite Hl in Hrun. discriminate Hrun.
Qed.


(** *** What leaves [this] alone *)

Lemma preserves_ret {A} (a : A) : preserves_this (mret a).
Proof. intros st r st' H. injection H as <- <-. reflexivity. Qed.

Lemma preserves_bind {A B} (c : M A) (f : A -> M B) :
  preserves_this c -> (forall a, preserves_this (f a)) ->
  preserves_this (c ≫= f).
Proof.
  intros Hc Hf st r st' Hrun. unfold mbind, M_bind in Hrun.
  destruct (c st) as [[a|e] st1] eqn:Hc1.
  - rewrite (Hf _ _ _ _ Hrun). eapply Hc, Hc1.
  - injection Hrun as <- <-. eapply Hc, Hc1.
Qed.

Lemma preserves_get v k : preserves_this (get v k).
Proof. intros st r st' H. unfold get in H. step. injection H as <- <-. reflexivity. Qed.

Lemma preserves_get_this : preserves_this get_this.
Proof. intros st r st' H. injection H as <- <-. reflexivity. Qed.

Lemma preserves_alloc o : preserves_this (alloc o).
Proof. intros st r st' H. unfold alloc in H. step. injection H as <- <-. reflexivity. Qed.

Lemma preserves_set v k x : preserves_this (set v k x).
Proof. intros st r st' H. apply set_frame in H as [H _]. exact H. Qed.

Lemma preserves_invoke m fv rcv xs : preserves_this (invoke host m fv rcv xs).
Proof.
  intros st r st' H.
  destruct (code_of (heap st) fv) as [f|e] eqn:Hc.
  - rewrite (invoke_code _ _ _ _ _ _ _ Hc) in H.
    apply apply_func_frame in H as [Ht _]. exact Ht.
  - unfold invoke in H. step. rewrite Hc in H. injection H as <- <-. reflexivity.
Qed.

Lemma preserves_call_method rcv k xs : preserves_this (call_method host rcv k xs).
Proof.
  unfold call_method. apply preserves_bind; [apply preserves_get|].
  intros fv. apply preserves_invoke.
Qed.

Lemma preserves_store_id json id k : preserves_this (store_id host json id k).
Proof.
  unfold store_id. apply preserves_bind; [apply preserves_call_method|]. intros x.
  apply preserves_bind; [apply preserves_set|]. intros _. apply preserves_ret.
Qed.

(** *** entityToObject: what is returned, and how it fails *)

Lemma store_id_returns json id k st v st' :
  store_id host json id k st = (Normal v, st') -> v = json.
Proof.
  unfold store_id, mbind, M_bind, mret, M_ret. intros H.
  destruct (call_method host id k [] st) as [[x|e] st1]; [|discriminate H].
  destruct (set json "_id" x st1) as [[u|e] st2]; [|discriminate H].
  injection H as <- _. reflexivity.
Qed.

Lemma entityToObject_reads entity st v st' :
  entityToObject host entity st = (Normal v, st') ->
  exists json st1 id,
    call_method host entity "toJSON" [] st = (Normal json, st1) /\
    get_in (heap st1) entity "_id" = Normal id.
Proof.
  intros H. unfold entityToObject in H.
  unfold body, seq, if_else, if_, stmt, return_, to_bool, js_and, get, lift,
    get_heap, mbind, M_bind, mret, M_ret in H.
  destruct (call_method host entity "toJSON" [] st) as [[json|e] st1];
    [|discriminate H].
  simpl in H.
  destruct (get_in (heap st1) entity "_id") as [id|e] eqn:Hid;
    [|discriminate H].
  exists json, st1, id. split; [reflexivity | exact Hid].
Qed.

(** X8.  Whenever [entityToObject] returns, what it returns is the very
    value that [entity.toJSON()] gave, the same reference and not a copy,
    and [this] is untouched. *)
Theorem entityToObject_returns_serialised entity st v st' :
  entityToObject host entity st = (Normal v, st') ->
  exists st1,
    call_method host entity "toJSON" [] st = (Normal v, st1) /\
    this st' = this st.
Proof.
  intros Hrun.
  destruct (entityToObject_reads _ _ _ _ Hrun) as (json & st1 & id & Hjson & Hid).
  pose proof (preserves_call_method _ _ _ _ _ _ Hjson) as Hthis1.
  rewrite (entityToObject_run host _ _ _ _ _ Hjson Hid) in Hrun.
  assert (Hgoal : v = json /\ this st' = this st1).
  { destruct (truthy id).
    - destruct (get_in (heap st1) id "toHexString") as [fh|e]; [|discriminate Hrun].
      destruct (truthy fh).
      + split; [exact (store_id_returns _ _ _ _ _ _ Hrun)|].
        exact (preserves_store_id _ _ _ _ _ _ Hrun).
      + destruct (get_in (heap st1) id "toString") as [fs|e]; [|discriminate Hrun].
        destruct (truthy fs).
        * split; [exact (store_id_returns _ _ _ _ _ _ Hrun)|].
          exact (preserves_store_id _ _ _ _ _ _ Hrun).
        * injection Hrun as <- <-. split; reflexivity.
    - injection Hrun as <- <-. split; reflexivity. }
  destruct Hgoal as [-> Ht]. exists st1. split; [exact Hjson|]. congruence.
Qed.

(** X9.  An entity that cannot be serialised makes [entityToObject] raise
    a [TypeError] before anything is called or changed: [undefined], [null],
    or a value whose [toJSON] is not a function, be it a primitive value or
    an object that cannot be called. *)
Theorem entityToObject_without_toJSON entity st :
  entity = VUndefined \/ entity = VNull \/
  (exists fv, get_in (heap st) entity "toJSON" = Normal fv /\
              code_of (heap st) fv = Throw TypeError) ->
  entityToObject host entity st = (Throw TypeError, st).
Proof.
  intros H. unfold entityToObject, call_method.
  unfold body, seq, get, lift, get_heap, mbind, M_bind.
  destruct H as [-> | [-> | (fv & Hget & Hcode)]]; try reflexivity.
  rewrite Hget. unfold invoke, get_heap, lift, mbind, M_bind.
  rewrite Hcode. reflexivity.
Qed.

(** X10.  When [toJSON] gives a primitive value, [undefined] for one, and
    the raw identifier is truthy and has its [toHexString] called with
    success, the assignment to [json._id] raises a [TypeError]: the module
    is in strict mode. *)
Theorem entityToObject_primitive_json entity st json st1 id x st2 :
  call_method host entity "toJSON" [] st = (Normal json, st1) ->
  get_in (heap st1) entity "_id" = Normal id ->
  primitive json = true ->
  truthy id = true ->
  exposes (heap st1) id "toHexString" = true ->
  call_method host id "toHexString" [] st1 = (Normal x, st2) ->
  fst (entityToObject host entity st) = Throw TypeError.
Proof.
  intros Hjson Hid Hp Ht Hex Hcall.
  rewrite (entityToObject_run host _ _ _ _ _ Hjson Hid), Ht.
  destruct (exposes_code _ _ _ Hex) as (fv & f & Hget & Hcode).
  rewrite Hget, (code_truthy _ _ _ Hcode).
  unfold store_id, mbind, M_bind. rewrite Hcall.
  destruct json; try discriminate Hp; reflexivity.
Qed.

(** *** init: what it assigns, which error it raises, and re-initialisation *)

(** The adapter after the first two assignments of [init]. *)
Lemma init_early_throw b svc st :
  (forall e, get_in (heap st) svc "schema" = Throw e ->
     init b svc st = (Throw e, St (heap st) (set_service svc (set_broker b (this st))) (log st))) /\
  (forall sch e, get_in (heap st) svc "schema" = Normal sch ->
     get_in (heap st) sch "model" = Throw e ->
     init b svc st = (Throw e, St (heap st) (set_service svc (set_broker b (this st))) (log st))).
Proof.
  split.
  - intros e Hsch. unfold init, service_schema. step. rewrite Hsch. reflexivity.
  - intros sch e Hsch Hm. unfold init, service_schema. step.
    rewrite Hsch. simpl. rewrite Hm. reflexivity.
Qed.

(** X11.  Whatever its outcome, an exception included, [init] has stored
    the broker and the service in [this], has left [uri], [opts] and [db] as
    they were, and has neither called anything nor changed the store. *)
Theorem init_assigns_broker_and_service b svc st c st' :
  init b svc st = (c, st') ->
  broker (this st') = b /\ service (this st') = svc /\
  uri (this st') = uri (this st) /\ opts (this st') = opts (this st) /\
  db (this st') = db (this st) /\
  heap st' = heap st /\ log st' = log st.
Proof.
  intros Hrun. destruct (init_early_throw b svc st) as [Hthrow1 Hthrow2].
  destruct (get_in (heap st) svc "schema") as [sch|e] eqn:Hsch.
  - destruct (get_in (heap st) sch "model") as [m|e] eqn:Hm.
    + destruct (get_in_same_receiver _ _ _ "schema" _ ltac:(discriminate) Hm) as [s Hs].
      destruct (get_in_same_receiver _ _ _ "modelName" _ ltac:(discriminate) Hm) as [n Hn].
      rewrite (init_run _ _ _ _ _ _ _ Hsch Hm Hs Hn) in Hrun. cbv zeta in Hrun.
      destruct (truthy m), (truthy s), (truthy n); simpl in Hrun;
        repeat match type of Hrun with
               | context [if ?x then _ else _] => destruct x; simpl in Hrun
               end;
        injection Hrun as <- <-; repeat split.
    + rewrite (Hthrow2 _ _ eq_refl Hm) in Hrun. injection Hrun as <- <-. repeat split.
  - rewrite (Hthrow1 _ eq_refl) in Hrun. injection Hrun as <- <-. repeat split.
Qed.

(** X12.  On an adapter with no model and no schema yet, the two
    configuration errors are told apart by their message: a schema declared
    without a modelName gives the message about [modelName], a service
    that declares neither model nor schema the message about the missing
    definition; in both cases nothing has been resolved. *)
Theorem init_error_messages b svc st sch m s n :
  get_in (heap st) svc "schema" = Normal sch ->
  get_in (heap st) sch "model" = Normal m ->
  get_in (heap st) sch "schema" = Normal s ->
  get_in (heap st) sch "modelName" = Normal n ->
  model (this st) = VUndefined ->
  schema (this st) = VUndefined ->
  truthy m = false ->
  let a0 := set_service svc (set_broker b (this st)) in
  (truthy s = true -> truthy n = false ->
     init b svc st =
     (Throw (ServiceSchemaError modelName_required), St (heap st) a0 (log st))) /\
  (truthy s = false ->
     init b svc st =
     (Throw (ServiceSchemaError missing_definition), St (heap st) a0 (log st))).
Proof.
  intros Hsch Hm Hs Hn Hmodel Hschema Htm a0.
  rewrite (init_run _ _ _ _ _ _ _ Hsch Hm Hs Hn). cbv zeta. rewrite Htm.
  split.
  - intros -> ->. reflexivity.
  - intros ->. simpl. rewrite Hmodel, Hschema. reflexivity.
Qed.

(** X13.  [init] never clears what an earlier [init] resolved.  On an
    adapter that already holds a model, a service that declares neither a
    model nor a schema is accepted and the old model stays; on an adapter
    that already holds a schema, a service that declares a model leaves
    both the new model and the old schema in place. *)
Theorem init_keeps_earlier_resolution b svc st sch m s n :
  get_in (heap st) svc "schema" = Normal sch ->
  get_in (heap st) sch "model" = Normal m ->
  get_in (heap st) sch "schema" = Normal s ->
  get_in (heap st) sch "modelName" = Normal n ->
  let a0 := set_service svc (set_broker b (this st)) in
  (truthy (model (this st)) = true -> truthy m = false -> truthy s = false ->
     init b svc st = (Normal VUndefined, St (heap st) a0 (log st))) /\
  (truthy m = true ->
     init b svc st = (Normal VUndefined, St (heap st) (set_model m a0) (log st)) /\
     schema (set_model m a0) = schema (this st) /\
     modelName (set_model m a0) = modelName (this st)).
Proof.
  intros Hsch Hm Hs Hn a0.
  rewrite (init_run _ _ _ _ _ _ _ Hsch Hm Hs Hn). cbv zeta.
  split.
  - intros Hold -> ->. simpl. rewrite Hold. reflexivity.
  - intros Htm. rewrite Htm. simpl. rewrite Htm. simpl.
    repeat split.
Qed.

(** X14.  A service without a schema object makes [init] raise a
    [TypeError], not a configuration error, once the broker and the
    service are stored: the service itself is [undefined] or [null], or its
    [schema] property is. *)
Theorem init_without_service_schema b svc st :
  svc = VUndefined \/ svc = VNull \/
  get_in (heap st) svc "schema" = Normal VUndefined \/
  get_in (heap st) svc "schema" = Normal VNull ->
  init b svc st =
  (Throw TypeError, St (heap st) (set_service svc (set_broker b (this st))) (log st)).
Proof.
  destruct (init_early_throw b svc st) as [Hthrow1 Hthrow2].
  intros [-> | [-> | [H | H]]].
  - apply Hthrow1. reflexivity.
  - apply Hthrow1. reflexivity.
  - apply (Hthrow2 _ _ H). reflexivity.
  - apply (Hthrow2 _ _ H). reflexivity.
Qed.

(** *** connect: what the reaction does once the connection is made *)

Lemma invoke_normal m fv rcv xs st r st' :
  invoke host m fv rcv xs st = (Normal r, st') ->
  exists f, log st' = (log st ++ [Invoke m f rcv xs])%list /\ this st' = this st.
Proof.
  intros H. destruct (code_of (heap st) fv) as [f|e] eqn:Hc.
  - rewrite (invoke_code _ _ _ _ _ _ _ Hc) in H.
    apply apply_func_frame in H as [Ht Hl]. exists f. split; assumption.
  - unfold invoke in H. step. rewrite Hc in H. discriminate H.
Qed.

Lemma call_method_normal rcv k xs st r st' :
  call_method host rcv k xs st = (Normal r, st') ->
  exists f, log st' = (log st ++ [Invoke Call f rcv xs])%list /\ this st' = this st.
Proof.
  unfold call_method, get, lift, get_heap, mbind, M_bind. intros H.
  destruct (get_in (heap st) rcv k) as [fv|e]; [|discriminate H].
  exact (invoke_normal _ _ _ _ _ _ _ H).
Qed.

Lemma db_on_normal ev st r st' :
  db_on host ev st = (Normal r, st') ->
  exists f,
    log st' = (log st ++ [Invoke Call f (db (this st))
                            [VString ev; VObject (fresh (dom (heap st)))]])%list /\
    this st' = this st.
Proof.
  unfold db_on, get, alloc, lift, get_heap, get_this, put_heap, mbind, M_bind,
    mret, M_ret. intros H.
  destruct (get_in (heap st) (db (this st)) "on") as [fv|e]; [|discriminate H].
  simpl in H. apply invoke_normal in H as (f & Hl & Ht). exists f. split; assumption.
Qed.

Lemma connected_run st lg :
  get_in (heap st) (service (this st)) "logger" = Normal lg ->
  connected host mongoose_connection st =
  match call_method host lg "info" [VString connected_message] st with
  | (Normal _, st1) =>
      match db_on host "disconnected"
              (St (heap st1) (set_db mongoose_connection (this st1)) (log st1)) with
      | (Normal _, st2) =>
          match db_on host "error" st2 with
          | (Normal _, st3) =>
              match db_on host "reconnect" st3 with
              | (Normal _, st4) => (Normal VUndefined, st4)
              | (Throw e, st4) => (Throw e, st4)
              end
          | (Throw e, st3) => (Throw e, st3)
          end
      | (Throw e, st2) => (Throw e, st2)
      end
  | (Throw e, st1) => (Throw e, st1)
  end.
Proof.
  intros Hlg. unfold connected, connected_message.
  unfold body, seq, stmt, get, lift, get_heap, get_this, modify_this, mbind,
    M_bind, mret, M_ret.
  rewrite Hlg.
  destruct (call_method host lg "info" _ st) as [[x|e] st1]; [|reflexivity].
  destruct (db_on host "disconnected" _) as [[x2|e] st2]; [|reflexivity].
  destruct (db_on host "error" st2) as [[x3|e] st3]; [|reflexivity].
  destruct (db_on host "reconnect" st3) as [[x4|e] st4]; reflexivity.
Qed.

Lemma connected_without_logger st e :
  get_in (heap st) (service (this st)) "logger" = Throw e ->
  connected host mongoose_connection st = (Throw e, st).
Proof.
  intros Hlg. unfold connected.
  unfold body, seq, stmt, get, lift, get_heap, get_this, mbind, M_bind.
  rewrite Hlg. reflexivity.
Qed.

Lemma call_method_calls rcv k xs st r st' :
  call_method host rcv k xs st = (Normal r, st') ->
  exists f,
    calls_method host f rcv k xs st (Normal r) st' /\
    log st' = (log st ++ [Invoke Call f rcv xs])%list /\
    this st' = this st.
Proof.
  unfold call_method, get, lift, get_heap, mbind, M_bind. intros H.
  destruct (get_in (heap st) rcv k) as [fv|e] eqn:Hget; [|discriminate H].
  destruct (code_of (heap st) fv) as [f|e] eqn:Hc.
  - rewrite (invoke_code _ _ _ _ _ _ _ Hc) in H. exists f.
    split; [exists fv; auto|].
    apply apply_func_frame in H as [Ht Hl]. split; assumption.
  - unfold invoke in H. step. rewrite Hc in H. discriminate H.
Qed.

Lemma db_on_registers ev st r st' :
  db_on host ev st = (Normal r, st') ->
  exists f,
    registers host f (db (this st)) ev st st' /\
    log st' = (log st ++ [Invoke Call f (db (this st))
                            [VString ev; VObject (fresh (dom (heap st)))]])%list /\
    this st' = this st.
Proof.
  unfold db_on, get, alloc, lift, get_heap, get_this, put_heap, mbind, M_bind,
    mret, M_ret. intros H.
  destruct (get_in (heap st) (db (this st)) "on") as [fv|e] eqn:Hget;
    [|discriminate H].
  simpl in H.
  destruct (code_of (<[fresh (dom (heap st)) := Obj ∅ (Some (Handler ev))]> (heap st)) fv)
    as [f|e] eqn:Hc.
  - rewrite (invoke_code _ _ _ f) in H by exact Hc. cbn [heap this log] in H.
    exists f. split; [exists fv, r; cbv zeta; auto|].
    apply apply_func_frame in H as [Ht Hl]. split; assumption.
  - unfold invoke in H. step. rewrite Hc in H. discriminate H.
Qed.

(** X15.  When the underlying promise is fulfilled and the reaction of
    [connect] completes, the returned promise is fulfilled with
    [undefined], [this.db] is [mongoose.connection] and nothing else of
    [this] has changed, and exactly four calls were made, in this order: the
    method [info] of the logger of the service, with the message, then the
    method [on] of the connection for ["disconnected"], ["error"] and
    ["reconnect"], each with a function made for it. *)
Theorem connect_fulfilled_registers_handlers st v r st' :
  then_ (fun _ => connected host mongoose_connection) (Fulfilled v) st
    = (Normal (Fulfilled r), st') ->
  r = VUndefined /\
  this st' = set_db mongoose_connection (this st) /\
  exists lg x f0 f1 f2 f3 st1 st2 st3,
    get_in (heap st) (service (this st)) "logger" = Normal lg /\
    calls_method host f0 lg "info" [VString connected_message] st (Normal x) st1 /\
    registers host f1 mongoose_connection "disconnected"
      (St (heap st1) (set_db mongoose_connection (this st1)) (log st1)) st2 /\
    registers host f2 mongoose_connection "error" st2 st3 /\
    registers host f3 mongoose_connection "reconnect" st3 st' /\
    log st' =
    (log st ++
     [Invoke Call f0 lg [VString connected_message];
      Invoke Call f1 mongoose_connection
        [VString "disconnected"; VObject (fresh (dom (heap st1)))];
      Invoke Call f2 mongoose_connection
        [VString "error"; VObject (fresh (dom (heap st2)))];
      Invoke Call f3 mongoose_connection
        [VString "reconnect"; VObject (fresh (dom (heap st3)))]])%list.
Proof.
  simpl. intros H.
  destruct (connected host mongoose_connection st) as [[x|e] stx] eqn:Hrun;
    [|discriminate H].
  injection H as <- <-.
  destruct (get_in (heap st) (service (this st)) "logger") as [lg|e] eqn:Hlg.
  2:{ rewrite (connected_without_logger _ _ Hlg) in Hrun. discriminate Hrun. }
  rewrite (connected_run _ _ Hlg) in Hrun.
  destruct (call_method host lg "info" _ st) as [[x1|e] st1] eqn:H1;
    [|discriminate Hrun].
  destruct (db_on host "disconnected" _) as [[x2|e] st2] eqn:H2; [|discriminate Hrun].
  destruct (db_on host "error" st2) as [[x3|e] st3] eqn:H3; [|discriminate Hrun].
  destruct (db_on host "reconnect" st3) as [[x4|e] st4] eqn:H4; [|discriminate Hrun].
  injection Hrun as <- <-.
  apply call_method_calls in H1 as (f0 & Hc1 & Hl1 & Ht1).
  apply db_on_registers in H2 as (f1 & Hc2 & Hl2 & Ht2).
  apply db_on_registers in H3 as (f2 & Hc3 & Hl3 & Ht3).
  apply db_on_registers in H4 as (f3 & Hc4 & Hl4 & Ht4).
  simpl in Hc2, Hl2, Ht2.
  assert (Hdb2 : db (this st2) = mongoose_connection) by (rewrite Ht2; reflexivity).
  assert (Hdb3 : db (this st3) = mongoose_connection) by (rewrite Ht3; exact Hdb2).
  rewrite Hdb2 in Hc3, Hl3. rewrite Hdb3 in Hc4, Hl4.
  split; [reflexivity|]. split; [congruence|].
  exists lg, x1, f0, f1, f2, f3, st1, st2, st3.
  split; [reflexivity|]. split; [exact Hc1|]. split; [exact Hc2|].
  split; [exact Hc3|]. split; [exact Hc4|].
  rewrite Hl4, Hl3, Hl2, Hl1. rewrite <- !app_assoc. reflexivity.
Qed.

(** X16.  When the call of [logger.info] raises, a service without a
    logger included, the promise returned by [connect] is rejected with that
    exception although the connection was made, and [this.db] is not set:
    [this] is as before. *)
Theorem connect_fulfilled_logger_fails st v lg e st1 :
  get_in (heap st) (service (this st)) "logger" = Normal lg ->
  call_method host lg "info" [VString connected_message] st = (Throw e, st1) ->
  then_ (fun _ => connected host mongoose_connection) (Fulfilled v) st
    = (Normal (Rejected e), st1) /\
  this st1 = this st.
Proof.
  intros Hlg Hcall. simpl. rewrite (connected_run _ _ Hlg), Hcall.
  split; [reflexivity|]. exact (preserves_call_method _ _ _ _ _ _ Hcall).
Qed.

(** *** disconnect and the constructor *)

Lemma disconnect_executor_run resolve st :
  disconnect_executor host mongoose_connection resolve st =
  let close_on (rcv : value) :=
    match call_method host rcv "close" [resolve] st with
    | (Normal _, st') => (Normal VUndefined, st')
    | (Throw e, st') => (Throw e, st')
    end in
  if truthy (db (this st)) then
    match get_in (heap st) (db (this st)) "close" with
    | Normal fv =>
        if truthy fv then close_on (db (this st)) else close_on mongoose_connection
    | Throw e => (Throw e, st)
    end
  else close_on mongoose_connection.
Proof.
  unfold disconnect_executor.
  unfold body, if_else, stmt, to_bool, js_and, get, lift, get_heap, get_this,
    mbind, M_bind, mret, M_ret.
  destruct (truthy (db (this st))) eqn:Hdb; simpl.
  - destruct (get_in (heap st) (db (this st)) "close") as [fv|e]; simpl;
      [|reflexivity].
    destruct (truthy fv); simpl.
    + destruct (call_method host (db (this st)) "close" [resolve] st)
        as [[x|e] st']; reflexivity.
    + destruct (call_method host mongoose_connection "close" [resolve] st)
        as [[x|e] st']; reflexivity.
  - rewrite Hdb. simpl.
    destruct (call_method host mongoose_connection "close" [resolve] st)
      as [[x|e] st']; reflexivity.
Qed.

(** X17.  Before any connection ([this.db] unset), and also after a
    successful [connect] ([this.db] is [mongoose.connection]), the function
    run by [disconnect] does exactly what closing the connection of the
    library does: [mongoose.connection.close(resolve)], including its
    failure when that connection has no [close]. *)
Theorem disconnect_closes_library_connection resolve st :
  truthy (db (this st)) = false \/ db (this st) = mongoose_connection ->
  disconnect_executor host mongoose_connection resolve st =
  match call_method host mongoose_connection "close" [resolve] st with
  | (Normal _, st') => (Normal VUndefined, st')
  | (Throw e, st') => (Throw e, st')
  end.
Proof.
  intros H. rewrite disconnect_executor_run. cbv zeta.
  destruct H as [-> | Hdb]; [reflexivity|]. rewrite Hdb.
  destruct (truthy mongoose_connection); [|reflexivity].
  destruct (get_in (heap st) mongoose_connection "close") as [fv|e] eqn:Hget.
  - destruct (truthy fv); reflexivity.
  - unfold call_method, get, lift, get_heap, mbind, M_bind. rewrite Hget. reflexivity.
Qed.

(** X18.  The function run by [disconnect] never changes [this]: the
    connection handle [this.db] is still set afterwards.  When it
    completes it has made one call: that of the method [close], read on
    [this.db] or on [mongoose.connection] and applied to that receiver with
    [resolve] as its only argument. *)
Theorem disconnect_keeps_handle resolve st c st' :
  disconnect_executor host mongoose_connection resolve st = (c, st') ->
  this st' = this st /\
  (forall r, c = Normal r ->
     r = VUndefined /\
     exists f rcv x,
       (rcv = db (this st) \/ rcv = mongoose_connection) /\
       calls_method host f rcv "close" [resolve] st (Normal x) st' /\
       log st' = (log st ++ [Invoke Call f rcv [resolve]])%list).
Proof.
  rewrite disconnect_executor_run. cbv zeta. intros H.
  assert (Hclose : forall rcv,
            (rcv = db (this st) \/ rcv = mongoose_connection) ->
            match call_method host rcv "close" [resolve] st with
            | (Normal _, st0) => (Normal VUndefined, st0)
            | (Throw e, st0) => (Throw e, st0)
            end = (c, st') ->
            this st' = this st /\
            (forall r, c = Normal r ->
               r = VUndefined /\
               exists f rcv0 x,
                 (rcv0 = db (this st) \/ rcv0 = mongoose_connection) /\
                 calls_method host f rcv0 "close" [resolve] st (Normal x) st' /\
                 log st' = (log st ++ [Invoke Call f rcv0 [resolve]])%list)).
  { intros rcv Hrcv Hrun.
    destruct (call_method host rcv "close" [resolve] st) as [[x|e] st0] eqn:Hcall;
      injection Hrun as <- <-.
    - destruct (call_method_calls _ _ _ _ _ _ Hcall) as (f & Hcalls & Hlog & Hthis).
      split; [exact Hthis|]. intros r Hr. injection Hr as <-.
      split; [reflexivity|]. exists f, rcv, x. auto.
    - split; [exact (preserves_call_method _ _ _ _ _ _ Hcall)|].
      intros r Hr. discriminate Hr. }
  destruct (truthy (db (this st))).
  - destruct (get_in (heap st) (db (this st)) "close") as [fv|e].
    + destruct (truthy fv);
        [apply (Hclose (db (this st))) | apply (Hclose mongoose_connection)];
        auto.
    + injection H as <- <-. split; [reflexivity|]. intros r Hr. discriminate Hr.
  - apply (Hclose mongoose_connection); auto.
Qed.

Lemma promise_library_run bluebird opts st :
  (forall l, opts = VObject l -> is_Some (heap st !! l)) ->
  exists v,
    promise_library bluebird opts st = (Normal v, st) /\
    (truthy opts = false -> v = bluebird) /\
    (forall p, truthy opts = true ->
       get_in (heap st) opts "promiseLibrary" = Normal p ->
       v = if truthy p then p else bluebird).
Proof.
  intros Hlive. unfold promise_library, js_or, js_and, get, lift, get_heap,
    mbind, M_bind, mret, M_ret.
  destruct (truthy opts) eqn:Ht; simpl.
  - assert (Hget : exists p, get_in (heap st) opts "promiseLibrary" = Normal p).
    { destruct opts; simpl in *; try discriminate; eauto.
      destruct (Hlive l eq_refl) as [o ->]. eauto. }
    destruct Hget as [p Hp]. rewrite Hp. simpl.
    exists (if truthy p then p else bluebird).
    split; [destruct (truthy p); reflexivity|].
    split; [discriminate|]. intros p' _ Hp'.
    assert (p' = p) as -> by congruence. reflexivity.
  - rewrite Ht. simpl. exists bluebird.
    split; [reflexivity|]. split; [reflexivity|]. discriminate.
Qed.

(** X19.  The constructor stores [uri] and [opts] in [this], then assigns
    to [mongoose.Promise], through the setter of the library and once, the
    value of [opts && opts.promiseLibrary || Promise]: it is
    [opts.promiseLibrary] when [opts] and that property are truthy, and
    bluebird in every other case, [opts] being [undefined] included.  The
    choice itself never raises; the constructor raises exactly when the
    setter does, with its exception, and [uri] and [opts] are stored all
    the same. *)
Theorem constructor_sets_promise_library bluebird uri opts st :
  (forall l, opts = VObject l -> is_Some (heap st !! l)) ->
  exists v,
    (truthy opts = false -> v = bluebird) /\
    (forall p, truthy opts = true ->
       get_in (heap st) opts "promiseLibrary" = Normal p ->
       v = if truthy p then p else bluebird) /\
    constructor host bluebird uri opts st =
    (match fst (host Call (Lib Mongoose_Promise) VUndefined [v] (heap st)) with
     | Normal _ => Normal VUndefined
     | Throw e => Throw e
     end,
     St (snd (host Call (Lib Mongoose_Promise) VUndefined [v] (heap st)))
        (set_opts opts (set_uri uri (this st)))
        (log st ++ [Invoke Call (Lib Mongoose_Promise) VUndefined [v]])).
Proof.
  intros Hlive.
  destruct (promise_library_run bluebird opts
              (St (heap st) (set_opts opts (set_uri uri (this st))) (log st)) Hlive)
    as (v & Hrun & Hfalsy & Htruthy).
  exists v. split; [exact Hfalsy|]. split; [exact Htruthy|].
  unfold constructor, body, seq, stmt, modify_this, mbind, M_bind, mret, M_ret.
  simpl. rewrite Hrun. unfold lib, invoke, record, lift, get_heap, mbind, M_bind,
    mret, M_ret. simpl. unfold host_call. simpl.
  destruct (host Call (Lib Mongoose_Promise) VUndefined [v] (heap st)) as [[x|e] h1];
    reflexivity.
Qed.

End MoreProperties.

(** ** Further runs on the sample hosts *)

Lemma objectIDToString_primitive_witness :
  exists st',
    objectIDToString sample_host (VNumber 42) empty_state
      = (Normal (VString "42"), st') /\
    heap st' = heap empty_state /\ this st' = this empty_state /\
    (forall s, VNumber 42 = VString s ->
       fst (objectIDToString sample_host (VNumber 42) empty_state)
         = Normal (VNumber 42)).
Proof.
  exact (objectIDToString_primitive sample_host (VNumber 42) empty_state eq_refl
           ltac:(intros n H; injection H as <-; reflexivity)).
Defined.

Lemma objectIDToString_plain_object_witness :
  fst (objectIDToString sample_host (VObject 1) before_state)
    = Normal (VString "[object Object]").
Proof.
  rewrite (objectIDToString_plain_object sample_host 1
             (Obj {[ "myID" := VString "123"; "title" := VString "t" ]} None)
             before_state eq_refl eq_refl ltac:(vm_compute; reflexivity)).
  reflexivity.
Defined.

Lemma stringToObjectID_check_raises_witness :
  fst (stringToObjectID throwing_host (VString "123") empty_state)
    = Throw (Thrown (VString "no check")).
Proof.
  rewrite (stringToObjectID_check_raises throwing_host "123" empty_state
             (Thrown (VString "no check")) ∅ eq_refl).
  reflexivity.
Defined.

Lemma beforeSaveTransformID_non_string_value_witness :
  beforeSaveTransformID sample_host 1 "myID" numeric_state =
  (Normal (VObject 2),
   St (<[2%positive := Obj {[ "_id" := VNumber 42; "title" := VString "t" ]} None]>
         (heap numeric_state))
      fresh_adapter []).
Proof.
  rewrite (beforeSaveTransformID_non_string_value sample_host 1 "myID" numeric_state
             (Obj {[ "myID" := VNumber 42; "title" := VString "t" ]} None)
             eq_refl eq_refl ltac:(vm_compute; reflexivity)
             ltac:(discriminate) ltac:(discriminate)
             ltac:(vm_compute; discriminate) ltac:(vm_compute; reflexivity)).
  vm_compute. reflexivity.
Defined.

Lemma afterRetrieveTransformID_missing_id_witness :
  afterRetrieveTransformID sample_host 1 "myID" before_state =
  (Normal (VObject 1),
   St {[ 1%positive := Obj {[ "myID" := VUndefined; "title" := VString "t" ]} None ]}
      fresh_adapter []).
Proof.
  rewrite (afterRetrieveTransformID_missing_id sample_host 1 "myID" before_state
             (Obj {[ "myID" := VString "123"; "title" := VString "t" ]} None)
             eq_refl eq_refl ltac:(discriminate) ltac:(discriminate)
             ltac:(vm_compute; reflexivity)).
  vm_compute. reflexivity.
Defined.

Lemma afterRetrieveTransformID_twice_witness :
  exists o1 st2 o2,
    heap after_result !! 1%positive = Some o1 /\
    afterRetrieveTransformID sample_host 1 "myID" after_result
      = (Normal (VObject 1), st2) /\
    heap st2 !! 1%positive = Some o2 /\
    props o2 !! "myID" = Some VUndefined /\
    props o2 !! "_id" = None.
Proof.
  exact (afterRetrieveTransformID_twice sample_host 1 "myID" after_state
           (VObject 1) after_result ltac:(discriminate) ltac:(discriminate)
           ltac:(vm_compute; reflexivity)
           ltac:(intros o1 H; vm_compute in H; injection H as <-; reflexivity)).
Defined.



Lemma entityToObject_returns_serialised_witness :
  exists st1,
    call_method sample_host (VObject 1) "toJSON" [] doc_state
      = (Normal (VObject 5), st1) /\
    this (snd (entityToObject sample_host (VObject 1) doc_state)) = this doc_state.
Proof.
  exact (entityToObject_returns_serialised sample_host (VObject 1) doc_state
           (VObject 5) (snd (entityToObject sample_host (VObject 1) doc_state))
           ltac:(vm_compute; reflexivity) ).
Defined.

Lemma entityToObject_without_toJSON_witness :
  entityToObject sample_host (VObject 1) before_state = (Throw TypeError, before_state) /\
  entityToObject sample_host (VObject 1) inert_json_state
    = (Throw TypeError, inert_json_state) /\
  entityToObject sample_host VNull before_state = (Throw TypeError, before_state).
Proof.
  split; [|split].
  - apply (entityToObject_without_toJSON sample_host (VObject 1) before_state).
    right. right. exists VUndefined. split; [vm_compute; reflexivity | reflexivity].
  - apply (entityToObject_without_toJSON sample_host (VObject 1) inert_json_state).
    right. right. exists (VObject 2).
    split; [vm_compute; reflexivity | vm_compute; reflexivity].
  - apply (entityToObject_without_toJSON sample_host VNull before_state).
    right. left. reflexivity.
Defined.

Lemma entityToObject_primitive_json_witness :
  fst (entityToObject sample_host (VObject 1) undefined_json_state) = Throw TypeError.
Proof.
  apply (entityToObject_primitive_json sample_host (VObject 1) undefined_json_state
             VUndefined
             (snd (call_method sample_host (VObject 1) "toJSON" [] undefined_json_state))
             (VObject 3) VUndefined
             (snd (call_method sample_host (VObject 3) "toHexString" []
                     (snd (call_method sample_host (VObject 1) "toJSON" []
                             undefined_json_state))))
             ltac:(vm_compute; reflexivity) ltac:(vm_compute; reflexivity) eq_refl eq_refl
             ltac:(vm_compute; reflexivity) ltac:(vm_compute; reflexivity)).
Defined.

Lemma init_assigns_broker_and_service_witness :
  let st' := snd (init (VString "broker") (VObject 1) (service_state ∅)) in
  broker (this st') = VString "broker" /\ service (this st') = VObject 1 /\
  uri (this st') = VString "mongodb://server" /\ opts (this st') = VUndefined /\
  db (this st') = VUndefined /\
  heap st' = heap (service_state ∅) /\ log st' = [].
Proof.
  exact (init_assigns_broker_and_service (VString "broker") (VObject 1)
           (service_state ∅)
           (fst (init (VString "broker") (VObject 1) (service_state ∅)))
           (snd (init (VString "broker") (VObject 1) (service_state ∅)))
           (surjective_pairing _)).
Defined.

Lemma init_error_messages_witness :
  fst (init VNull (VObject 1) (service_state {[ "schema" := VObject 3 ]}))
    = Throw (ServiceSchemaError modelName_required) /\
  fst (init VNull (VObject 1) (service_state ∅))
    = Throw (ServiceSchemaError missing_definition).
Proof.
  split.
  - rewrite (proj1 (init_error_messages VNull (VObject 1)
                      (service_state {[ "schema" := VObject 3 ]})
                      (VObject 2) VUndefined (VObject 3) VUndefined
                      ltac:(vm_compute; reflexivity) ltac:(vm_compute; reflexivity)
                    ltac:(vm_compute; reflexivity) ltac:(vm_compute; reflexivity) eq_refl
                    eq_refl eq_refl) eq_refl eq_refl).
    reflexivity.
  - rewrite (proj2 (init_error_messages VNull (VObject 1) (service_state ∅)
                      (VObject 2) VUndefined VUndefined VUndefined
                      ltac:(vm_compute; reflexivity) ltac:(vm_compute; reflexivity)
                    ltac:(vm_compute; reflexivity) ltac:(vm_compute; reflexivity) eq_refl
                    eq_refl eq_refl) eq_refl).
    reflexivity.
Defined.

Lemma init_keeps_earlier_resolution_witness :
  fst (init VNull (VObject 1) stale_state) = Normal VUndefined /\
  model (this (snd (init VNull (VObject 1) stale_state))) = VObject 3.
Proof.
  rewrite (proj1 (init_keeps_earlier_resolution VNull (VObject 1) stale_state
                    (VObject 2) VUndefined VUndefined VUndefined
                    ltac:(vm_compute; reflexivity) ltac:(vm_compute; reflexivity)
                    ltac:(vm_compute; reflexivity) ltac:(vm_compute; reflexivity) )
                    eq_refl eq_refl eq_refl).
  split; reflexivity.
Defined.

Lemma init_without_service_schema_witness :
  fst (init VNull VUndefined empty_state) = Throw TypeError /\
  fst (init VNull (VObject 1) before_state) = Throw TypeError.
Proof.
  split.
  - rewrite (init_without_service_schema VNull VUndefined empty_state
               (or_introl eq_refl)).
    reflexivity.
  - assert (H : get_in (heap before_state) (VObject 1) "schema" = Normal VUndefined)
      by (vm_compute; reflexivity).
    rewrite (init_without_service_schema VNull (VObject 1) before_state
               (or_intror (or_intror (or_introl H)))).
    reflexivity.
Defined.

Lemma connect_fulfilled_registers_handlers_witness :
  db (this connected_state) = VObject 6 /\
  length (log connected_state) = length (log pending_state) + 4.
Proof.
  destruct (connect_fulfilled_registers_handlers sample_host (VObject 6)
              pending_state VUndefined VUndefined connected_state ltac:(vm_compute; reflexivity))
    as (_ & Hthis & lg & x & f0 & f1 & f2 & f3 & st1 & st2 & st3
        & _ & _ & _ & _ & _ & Hlog).
  split.
  - rewrite Hthis. reflexivity.
  - rewrite Hlog, length_app. reflexivity.
Defined.

Lemma connect_fulfilled_logger_fails_witness :
  then_ (fun _ => connected sample_host (VObject 6)) (Fulfilled VUndefined) mute_state
    = (Normal (Rejected TypeError), mute_state) /\
  this mute_state = this mute_state.
Proof.
  exact (connect_fulfilled_logger_fails sample_host (VObject 6) mute_state
           VUndefined VUndefined TypeError mute_state ltac:(vm_compute; reflexivity)
           ltac:(vm_compute; reflexivity) ).
Defined.

Lemma disconnect_closes_library_connection_witness :
  disconnect_executor sample_host (VObject 6) (VObject 5) connected_state =
  match call_method sample_host (VObject 6) "close" [VObject 5] connected_state with
  | (Normal _, st') => (Normal VUndefined, st')
  | (Throw e, st') => (Throw e, st')
  end.
Proof.
  apply (disconnect_closes_library_connection sample_host (VObject 6) (VObject 5)
           connected_state).
  right. vm_compute. reflexivity.
Defined.

Lemma disconnect_keeps_handle_witness :
  this (snd (disconnect_executor sample_host (VObject 6) (VObject 5) connected_state))
    = this connected_state.
Proof.
  exact (proj1 (disconnect_keeps_handle sample_host (VObject 6) (VObject 5)
                  connected_state
                  (fst (disconnect_executor sample_host (VObject 6) (VObject 5)
                          connected_state))
                  (snd (disconnect_executor sample_host (VObject 6) (VObject 5)
                          connected_state))
                  (surjective_pairing _))).
Defined.

Lemma constructor_sets_promise_library_witness :
  constructor asserting_host (VNative (Host 9)) (VString "mongodb://server") VUndefined
      (St ∅ unset_adapter [])
    = (Normal VUndefined,
       St ∅ fresh_adapter
          [Invoke Call (Lib Mongoose_Promise) VUndefined [VNative (Host 9)]]) /\
  constructor asserting_host (VNative (Host 9)) (VString "mongodb://server") (VObject 1)
      options_state
    = (Throw (Thrown (VString "mongoose.Promise must be a function")),
       St (heap options_state)
          (set_opts (VObject 1) (set_uri (VString "mongodb://server") unset_adapter))
          [Invoke Call (Lib Mongoose_Promise) VUndefined [VNumber 42]]).
Proof.
  split.
  - destruct (constructor_sets_promise_library asserting_host (VNative (Host 9))
                (VString "mongodb://server") VUndefined (St ∅ unset_adapter [])
                ltac:(intros l H; discriminate H))
      as (v & Hfalsy & _ & Hrun).
    rewrite Hrun, (Hfalsy eq_refl). vm_compute. reflexivity.
  - destruct (constructor_sets_promise_library asserting_host (VNative (Host 9))
                (VString "mongodb://server") (VObject 1) options_state
                ltac:(intros l H; injection H as <-; vm_compute; eauto))
      as (v & _ & Htruthy & Hrun).
    rewrite Hrun, (Htruthy (VNumber 42) eq_refl ltac:(vm_compute; reflexivity)).
    vm_compute. reflexivity.
Defined.
